(** * Text extraction service ([scripts/extract-text.py])

    A shallow embedding of the extraction adapters, of the fallback
    orchestrator [extract_text] and of the output part of [main], together
    with the properties of the design document that concern them.

    Conventions of the embedding.
    - A Python [str] is a [string]; [s[:n]] is [substring 0 n s],
      [s.startswith(p)] is [prefix p s], [len] is [length].
    - A Python [int] is a [Z].
    - [Optional[T]] and the [list = None] fields are [option].
    - A call that may raise returns an [outcome]: [Ret v] or [Raise msg],
      where [msg] is [str(e)] of the raised [Exception].
    - The three third-party libraries are capabilities that may be missing
      ([get_trafilatura()] and friends return [None] on [ImportError]); what
      they compute is a parameter of the development. *)

From Stdlib Require Import String Ascii List ZArith Bool Arith Lia.
Import ListNotations.
Local Open Scope string_scope.
Local Open Scope list_scope.

(** ** Python strings *)

Module PyStr.

(** [str.isspace] on the code points below 256; the same class is used by
    [str.split()], [str.strip()] and the [\s] of [re] on [str] patterns. *)
Definition isspace (c : ascii) : bool :=
  let n := nat_of_ascii c in
  (((9 <=? n) && (n <=? 13)) || ((28 <=? n) && (n <=? 32))
   || (n =? 133) || (n =? 160))%nat.

(** Truth value of a string: [bool(s)]. *)
Definition truthy (s : string) : bool :=
  match s with EmptyString => false | String _ _ => true end.

(** [split_acc w s]: the words of [s], [w] being the word under way. *)
Fixpoint split_acc (w s : string) : list string :=
  match s with
  | EmptyString => if truthy w then [w] else []
  | String c s' =>
      if isspace c
      then (if truthy w then w :: split_acc "" s' else split_acc "" s')
      else split_acc (w ++ String c "") s'
  end.

(** [s.split()]: maximal runs of non-whitespace characters. *)
Definition split (s : string) : list string := split_acc "" s.

(** [re.sub(r'\s+', ' ', s)]; [in_run] tells that the previous character
    was whitespace and has already been replaced. *)
Fixpoint sub_ws (in_run : bool) (s : string) : string :=
  match s with
  | EmptyString => EmptyString
  | String c s' =>
      if isspace c
      then (if in_run then sub_ws true s' else String " " (sub_ws true s'))
      else String c (sub_ws false s')
  end.

Fixpoint lstrip (s : string) : string :=
  match s with
  | EmptyString => EmptyString
  | String c s' => if isspace c then lstrip s' else s
  end.

Fixpoint rstrip (s : string) : string :=
  match s with
  | EmptyString => EmptyString
  | String c s' =>
      let r := rstrip s' in
      if isspace c && negb (truthy r) then EmptyString else String c r
  end.

(** [s.strip()] *)
Definition strip (s : string) : string := rstrip (lstrip s).

(** [s[:n]] *)
Definition slice_to (n : nat) (s : string) : string := substring 0 n s.

(** [s.startswith(p)] *)
Definition startswith (p s : string) : bool := prefix p s.

End PyStr.

(** ** Exceptions *)

Inductive outcome (A : Type) : Type :=
| Ret (a : A)
| Raise (e : string).
Arguments Ret {A} a.
Arguments Raise {A} e.

Definition bind {A B : Type} (m : outcome A) (k : A -> outcome B) : outcome B :=
  match m with
  | Ret a => k a
  | Raise e => Raise e
  end.

(** [try: body  except Exception as e: handler(str(e))] *)
Definition try_except {A : Type} (body : outcome A) (handler : string -> outcome A)
  : outcome A :=
  match body with
  | Ret a => Ret a
  | Raise e => handler e
  end.

Declare Scope outcome_scope.
Delimit Scope outcome_scope with outcome.
Notation "x <- m ;; k" := (bind m (fun x => k))
  (at level 61, m at next level, right associativity) : outcome_scope.

(** ** The result records *)

(** [class ExtractedMetadata] *)
Record ExtractedMetadata : Type := mkExtractedMetadata {
  md_title : option string;
  md_author : option string;
  md_date : option string;
  md_description : option string;
  md_sitename : option string;
  md_categories : option (list string);
  md_tags : option (list string);
  md_language : option string
}.

(** The dictionaries appended to [headings], [links] and [images]. *)
Record heading : Type := mkHeading { level : Z; heading_text : string }.
Record link : Type := mkLink { url : string; link_text : string }.
Record image : Type := mkImage { image_url : string; alt : option string }.

(** [class ExtractionResult] *)
Record ExtractionResult : Type := mkExtractionResult {
  success : bool;
  text : option string;
  word_count : Z;
  metadata : option ExtractedMetadata;
  method : option string;
  error : option string;
  title_extracted : option string;
  headings : option (list heading);
  links : option (list link);
  images : option (list image)
}.

(** [ExtractionResult(success=False, error=msg)]: every other field keeps
    its default. *)
Definition failure (msg : string) : ExtractionResult :=
  {| success := false; text := None; word_count := 0; metadata := None;
     method := None; error := Some msg; title_extracted := None;
     headings := None; links := None; images := None |}.

(** ** The libraries, as capabilities *)

(** The object returned by [trafilatura.extract_metadata]. *)
Record TrafilaturaMeta : Type := mkTrafilaturaMeta {
  tm_title : option string;
  tm_author : option string;
  tm_date : option string;
  tm_description : option string;
  tm_sitename : option string;
  tm_categories : option (list string);
  tm_tags : option (list string);
  tm_language : option string
}.

(** The module [trafilatura]: [extract] with the keyword arguments of the
    call site, and [extract_metadata]. *)
Record Trafilatura : Type := mkTrafilatura {
  extract : string -> outcome (option string);
  extract_metadata : string -> outcome (option TrafilaturaMeta)
}.

(** The names of the heading elements asked of [find_all]. *)
Inductive heading_name : Type := h1 | h2 | h3 | h4 | h5 | h6.

Definition name_of (h : heading_name) : string :=
  match h with
  | h1 => "h1" | h2 => "h2" | h3 => "h3" | h4 => "h4" | h5 => "h5" | h6 => "h6"
  end.

(** [int(c)] for a one-character string holding a decimal digit. *)
Definition int_of_digit (c : ascii) : Z :=
  Z.of_nat (nat_of_ascii c) - 48.

(** [int(name[1])] *)
Definition int_name_1 (name : string) : Z :=
  match get 1 name with
  | Some c => int_of_digit c
  | None => 0
  end.

(** What [body.find(...)] and [get_text(separator=' ', strip=True)] report
    for the [<body>] element. *)
Record Body : Type := mkBody {
  find_main : option string;       (* body.find('main'), its text *)
  find_article : option string;    (* body.find('article'), its text *)
  find_content : option string;    (* body.find(id='content'), its text *)
  body_get_text : string           (* body.get_text(separator=' ', strip=True) *)
}.

(** A parsed document, through the queries the adapters make of it. Texts
    of elements are those of [get_text(strip=True)]. *)
Record Soup : Type := mkSoup {
  find_title : option string;                      (* soup.find('title') *)
  find_all_h : list (heading_name * string);       (* soup.find_all(['h1',...,'h6']) *)
  find_all_a : list (string * string);             (* soup.find_all('a', href=True): href, text *)
  find_all_img : list (string * option string);    (* soup.find_all('img', src=True): src, alt *)
  find_body : option Body;                         (* soup.find('body') *)
  get_text : string                                (* soup.get_text(separator=' ', strip=True) *)
}.

(** The class [bs4.BeautifulSoup] with the ['lxml'] parser. [decompose_all]
    is the loop [for element in soup.find_all(names): element.decompose()].
    The queries of a [Soup] are inside one [try] block whose handler only
    reads the message, so their raise points are merged with these two. *)
Record BeautifulSoupLib : Type := mkBeautifulSoupLib {
  BeautifulSoup : string -> outcome Soup;
  decompose_all : list string -> Soup -> outcome Soup
}.

(** [readability.Document]: the object, then [doc.summary()] and
    [doc.title()]. *)
Record ReadabilityDoc : Type := mkReadabilityDoc {
  summary : outcome string;
  title : outcome string
}.

Record ReadabilityLib : Type := mkReadabilityLib {
  Document : string -> outcome ReadabilityDoc
}.

(** ** Pieces of the adapters *)

(** [list(x) if x else None] for a list that may be [None] or empty. *)
Definition list_or_None (x : option (list string)) : option (list string) :=
  match x with
  | Some (a :: l) => Some (a :: l)
  | _ => None
  end.

(** [a or b] on element handles: a tag is always true, [None] is false. *)
Definition or_else {A : Type} (a b : option A) : option A :=
  match a with
  | Some x => Some x
  | None => b
  end.

(** The tags removed before the structured extraction. *)
Definition unwanted : list string :=
  ["script"; "style"; "nav"; "header"; "footer"; "aside"; "noscript";
   "iframe"; "svg"].

(** The dictionary appended for one heading element. *)
Definition heading_of (h : heading_name * string) : heading :=
  {| level := int_name_1 (name_of (fst h));
     heading_text := PyStr.slice_to 200 (snd h) |}.

(** The condition under which an anchor is kept:
    [href and not href.startswith('#') and not href.startswith('javascript:')]. *)
Definition keep_href (href : string) : bool :=
  PyStr.truthy href
  && negb (PyStr.startswith "#" href)
  && negb (PyStr.startswith "javascript:" href).

Definition link_of (a : string * string) : link :=
  {| url := fst a; link_text := PyStr.slice_to 200 (snd a) |}.

(** [img.get('alt', '')[:200] if img.get('alt') else None] *)
Definition alt_of (a : option string) : option string :=
  match a with
  | Some s => if PyStr.truthy s then Some (PyStr.slice_to 200 s) else None
  | None => None
  end.

Definition image_of (i : string * option string) : image :=
  {| image_url := fst i; alt := alt_of (snd i) |}.

(** The three adapters, for tracing the attempts of the orchestrator. *)
Inductive adapter : Type := trafilatura_adapter | readability_adapter | beautifulsoup_adapter.

(** A computation that records which adapters it has called, in order. *)
Definition traced (A : Type) : Type := (list adapter * outcome A)%type.

Definition tret {A : Type} (a : A) : traced A := ([], Ret a).

Definition tbind {A B : Type} (m : traced A) (k : A -> traced B) : traced B :=
  match m with
  | (t, Ret a) => let (t', o) := k a in (t ++ t', o)
  | (t, Raise e) => (t, Raise e)
  end.

Declare Scope traced_scope.
Delimit Scope traced_scope with traced.
Notation "x <~ m ;; k" := (tbind m (fun x => k))
  (at level 61, m at next level, right associativity) : traced_scope.

(** What a run returned and which adapters it called. *)
Definition calls {A : Type} (m : traced A) : list adapter := fst m.
Definition returned {A : Type} (m : traced A) : outcome A := snd m.

(** JSON-like values, the images of [dataclasses.asdict]. *)
#[warnings="-register-all"]
Inductive value : Type :=
| VNone
| VBool (b : bool)
| VInt (z : Z)
| VStr (s : string)
| VList (l : list value)
| VDict (d : list (string * value)).

Definition of_option {A : Type} (f : A -> value) (o : option A) : value :=
  match o with
  | Some a => f a
  | None => VNone
  end.

Definition VStrs (l : list string) : value := VList (map VStr l).

Definition asdict_metadata (m : ExtractedMetadata) : value :=
  VDict [("title", of_option VStr (md_title m));
         ("author", of_option VStr (md_author m));
         ("date", of_option VStr (md_date m));
         ("description", of_option VStr (md_description m));
         ("sitename", of_option VStr (md_sitename m));
         ("categories", of_option VStrs (md_categories m));
         ("tags", of_option VStrs (md_tags m));
         ("language", of_option VStr (md_language m))].

Definition value_of_heading (h : heading) : value :=
  VDict [("level", VInt (level h)); ("text", VStr (heading_text h))].

Definition value_of_link (l : link) : value :=
  VDict [("url", VStr (url l)); ("text", VStr (link_text l))].

Definition value_of_image (i : image) : value :=
  VDict [("url", VStr (image_url i)); ("alt", of_option VStr (alt i))].

(** The fields of [asdict(result)], in declaration order. *)
Definition asdict_fields (r : ExtractionResult) : list (string * value) :=
  [("success", VBool (success r));
   ("text", of_option VStr (text r));
   ("word_count", VInt (word_count r));
   ("metadata", of_option asdict_metadata (metadata r));
   ("method", of_option VStr (method r));
   ("error", of_option VStr (error r));
   ("title_extracted", of_option VStr (title_extracted r));
   ("headings", of_option (fun l => VList (map value_of_heading l)) (headings r));
   ("links", of_option (fun l => VList (map value_of_link l)) (links r));
   ("images", of_option (fun l => VList (map value_of_image l)) (images r))].

Definition asdict (r : ExtractionResult) : value := VDict (asdict_fields r).

(** [d[k]] read, and [d[k] = v] on a dictionary kept in insertion order. *)
Fixpoint dict_get (k : string) (d : list (string * value)) : option value :=
  match d with
  | [] => None
  | (k', v) :: d' => if String.eqb k k' then Some v else dict_get k d'
  end.

Fixpoint dict_set (k : string) (v : value) (d : list (string * value))
  : list (string * value) :=
  match d with
  | [] => [(k, v)]
  | (k', v') :: d' =>
      if String.eqb k k' then (k', v) :: d' else (k', v') :: dict_set k v d'
  end.

(** [--output] *)
Inductive output_choice : Type := output_json | output_text | output_all.

(** What [main] does once the HTML is read: print a line of text or a JSON
    document on the standard output, or print on the standard error and
    leave with status 1. *)
Inductive main_effect : Type :=
| print_text (s : string)
| print_json (v : value)
| exit_1 (stderr : string).

(** ** The adapters *)

Local Open Scope outcome_scope.

(** The [try] block of [extract_with_trafilatura]. *)
Definition trafilatura_try (trafilatura : Trafilatura) (html : string)
  : outcome ExtractionResult :=
  text_ <- extract trafilatura html ;;
  match text_ with
  | None => Ret (failure "trafilatura returned empty")
  | Some txt =>
      if negb (PyStr.truthy txt)
      then Ret (failure "trafilatura returned empty")
      else
        meta <- extract_metadata trafilatura html ;;
        let metadata_ :=
          match meta with
          | Some m =>
              Some {| md_title := tm_title m;
                      md_author := tm_author m;
                      md_date := tm_date m;
                      md_description := tm_description m;
                      md_sitename := tm_sitename m;
                      md_categories := list_or_None (tm_categories m);
                      md_tags := list_or_None (tm_tags m);
                      md_language := tm_language m |}
          | None => None
          end in
        let words := PyStr.split txt in
        Ret {| success := true;
               text := Some txt;
               word_count := Z.of_nat (length words);
               metadata := metadata_;
               method := Some "trafilatura";
               error := None;
               title_extracted :=
                 match meta with Some m => tm_title m | None => None end;
               headings := None; links := None; images := None |}
  end.

(** The [try] block of [extract_with_beautifulsoup]. *)
Definition beautifulsoup_try (bs4 : BeautifulSoupLib) (html : string)
  : outcome ExtractionResult :=
  soup0 <- BeautifulSoup bs4 html ;;
  soup <- decompose_all bs4 unwanted soup0 ;;
  let title_ := find_title soup in
  let headings_ := map heading_of (find_all_h soup) in
  let links_ :=
    map link_of (filter (fun a => keep_href (fst a)) (find_all_a soup)) in
  let images_ := map image_of (find_all_img soup) in
  let text0 :=
    match find_body soup with
    | Some body =>
        let main_ :=
          or_else (or_else (find_main body) (find_article body))
                  (find_content body) in
        match main_ with
        | Some t => t
        | None => body_get_text body
        end
    | None => get_text soup
    end in
  let text_ := PyStr.strip (PyStr.sub_ws false text0) in
  let words := PyStr.split text_ in
  Ret {| success := true;
         text := Some text_;
         word_count := Z.of_nat (length words);
         metadata := None;
         method := Some "beautifulsoup";
         error := None;
         title_extracted := title_;
         headings := Some (firstn 50 headings_);
         links := Some (firstn 500 links_);
         images := Some (firstn 100 images_) |}.

(** The [try] block of [extract_with_readability]. *)
Definition readability_try (readability : ReadabilityLib) (bs4 : BeautifulSoupLib)
  (html : string) : outcome ExtractionResult :=
  doc <- Document readability html ;;
  content <- summary doc ;;
  title_ <- title doc ;;
  soup <- BeautifulSoup bs4 content ;;
  let text0 := get_text soup in
  let text_ := PyStr.strip (PyStr.sub_ws false text0) in
  let words := PyStr.split text_ in
  Ret {| success := true;
         text := Some text_;
         word_count := Z.of_nat (length words);
         metadata := None;
         method := Some "readability";
         error := None;
         title_extracted := Some title_;
         headings := None; links := None; images := None |}.

Section Extraction.

(** [get_trafilatura()], [get_beautifulsoup()] and [get_readability()]:
    the library, or [None] when its import fails. *)
Variable get_trafilatura : option Trafilatura.
Variable get_beautifulsoup : option BeautifulSoupLib.
Variable get_readability : option ReadabilityLib.

Definition extract_with_trafilatura (html : string) : outcome ExtractionResult :=
  match get_trafilatura with
  | None => Ret (failure "trafilatura not installed")
  | Some trafilatura =>
      try_except (trafilatura_try trafilatura html)
        (fun e => Ret (failure ("trafilatura error: " ++ e)))
  end.

Definition extract_with_beautifulsoup (html : string) : outcome ExtractionResult :=
  match get_beautifulsoup with
  | None => Ret (failure "beautifulsoup4 not installed")
  | Some bs4 =>
      try_except (beautifulsoup_try bs4 html)
        (fun e => Ret (failure ("beautifulsoup error: " ++ e)))
  end.

Definition extract_with_readability (html : string) : outcome ExtractionResult :=
  match get_readability with
  | None => Ret (failure "readability-lxml not installed")
  | Some readability =>
      match get_beautifulsoup with
      | None => Ret (failure "beautifulsoup4 not installed")
      | Some bs4 =>
          try_except (readability_try readability bs4 html)
            (fun e => Ret (failure ("readability error: " ++ e)))
      end
  end.

(** One adapter call. *)
Definition run_adapter (a : adapter) (html : string) : outcome ExtractionResult :=
  match a with
  | trafilatura_adapter => extract_with_trafilatura html
  | readability_adapter => extract_with_readability html
  | beautifulsoup_adapter => extract_with_beautifulsoup html
  end.

(** The same, recorded in the trace. *)
Definition call (a : adapter) (html : string) : traced ExtractionResult :=
  ([a], run_adapter a html).

(** The value an adapter returns; the adapters catch what is raised. *)
Definition result_of (a : adapter) (html : string) : ExtractionResult :=
  match run_adapter a html with
  | Ret r => r
  | Raise e => failure e
  end.

Local Open Scope traced_scope.

(** ** The orchestrator *)

Definition extract_text (html : string) : traced ExtractionResult :=
  (* Strategy 1: Trafilatura *)
  result <~ call trafilatura_adapter html ;;
  if success result && (50 <? word_count result)%Z then tret result else
  (* Strategy 2: Readability *)
  result_readability <~ call readability_adapter html ;;
  if success result_readability && (50 <? word_count result_readability)%Z
  then tret result_readability else
  (* Strategy 3: BeautifulSoup *)
  result_bs <~ call beautifulsoup_adapter html ;;
  if success result_bs then tret result_bs else
  (* If Trafilatura partially worked, use it *)
  if success result then tret result else
  (* Return error from first attempt *)
  tret result.

(** ** The output of [main], the HTML being read *)

Definition main (output : output_choice) (html : string) : traced main_effect :=
  result <~ extract_text html ;;
  match output with
  | output_text =>
      if success result
      then tret (print_text (match text result with Some t => t | None => "None" end))
      else tret (exit_1 ("Error: " ++ match error result with Some e => e | None => "None" end))
  | output_all =>
      r_t <~ call trafilatura_adapter html ;;
      r_b <~ call beautifulsoup_adapter html ;;
      r_r <~ call readability_adapter html ;;
      tret (print_json
              (VDict [("trafilatura", asdict r_t);
                      ("beautifulsoup", asdict r_b);
                      ("readability", asdict r_r);
                      ("preferred", asdict result)]))
  | output_json =>
      let output_ := asdict_fields result in
      let output_ :=
        match metadata result with
        | Some m => dict_set "metadata" (asdict_metadata m) output_
        | None => output_
        end in
      tret (print_json (VDict output_))
  end.

End Extraction.

Arguments extract_with_trafilatura get_trafilatura html : simpl never.
Arguments extract_with_beautifulsoup get_beautifulsoup html : simpl never.
Arguments extract_with_readability get_beautifulsoup get_readability html : simpl never.

(** ** The design document's words, for comparison *)

(** Quality gate: [passes(doc) = doc.success AND doc.wordCount > 50]. *)
Definition passes (doc : ExtractionResult) : bool :=
  success doc && (word_count doc >? 50)%Z.

(** The five steps of the orchestrator, on the results of the three
    attempts. *)
Definition five_steps (primary secondary structural : ExtractionResult)
  : ExtractionResult :=
  if passes primary then primary                 (* 1 *)
  else if passes secondary then secondary        (* 2 *)
  else if success structural then structural     (* 3 *)
  else if success primary then primary           (* 4 *)
  else primary.                                  (* 5 *)

(** The adapters a run reaches under that algorithm. *)
Definition attempted (primary secondary : ExtractionResult) : list adapter :=
  if passes primary then [trafilatura_adapter]
  else if passes secondary then [trafilatura_adapter; readability_adapter]
  else [trafilatura_adapter; readability_adapter; beautifulsoup_adapter].

(** The invariant "exactly one of [success = true] (then [text] present and
    non-empty) or [success = false] (then [error] present)". *)
Definition text_or_error (r : ExtractionResult) : Prop :=
  (success r = true /\ exists t, text r = Some t /\ t <> "")
  \/ (success r = false /\ exists e, error r = Some e).

(** The corner case "trafilatura succeeds with 30 words, the other two
    fail", with [method] left unset in the final result. *)
Definition partial_success_unset
  (gt : option Trafilatura) (gb : option BeautifulSoupLib)
  (gr : option ReadabilityLib) (html : string) : Prop :=
  forall primary secondary structural,
    run_adapter gt gb gr trafilatura_adapter html = Ret primary ->
    run_adapter gt gb gr readability_adapter html = Ret secondary ->
    run_adapter gt gb gr beautifulsoup_adapter html = Ret structural ->
    success primary = true -> word_count primary = 30%Z ->
    success secondary = false -> success structural = false ->
    exists r, returned (extract_text gt gb gr html) = Ret r
              /\ r = primary /\ success r = true /\ word_count r = 30%Z
              /\ method r = None.

(** "Without beautifulsoup4 the readability adapter reports
    [beautifulsoup4 not installed]." *)
Definition readability_reports_bs4
  (gr : option ReadabilityLib) (html : string) : Prop :=
  extract_with_readability None gr html
  = Ret (failure "beautifulsoup4 not installed").

(** An entry of [links] that the filter must not let through. *)
Definition excluded_url (u : string) : Prop :=
  u = "" \/ PyStr.startswith "#" u = true
  \/ PyStr.startswith "javascript:" u = true.

(** The caps and truncations of the list fields. *)
Definition within_caps (r : ExtractionResult) : Prop :=
  (forall hs, headings r = Some hs ->
     (length hs <= 50)%nat
     /\ forall h, In h hs -> (String.length (heading_text h) <= 200)%nat)
  /\ (forall ls, links r = Some ls ->
        (length ls <= 500)%nat
        /\ forall l, In l ls -> (String.length (link_text l) <= 200)%nat)
  /\ (forall ims, images r = Some ims ->
        (length ims <= 100)%nat
        /\ forall i a, In i ims -> alt i = Some a -> (String.length a <= 200)%nat).

(** ** What an adapter can return *)

(** The backend an adapter wraps, as its messages spell it. *)
Definition backend_name (a : adapter) : string :=
  match a with
  | trafilatura_adapter => "trafilatura"
  | readability_adapter => "readability"
  | beautifulsoup_adapter => "beautifulsoup"
  end.

(** An error message starts with a backend's name. *)
Definition tagged (name e : string) : bool := PyStr.startswith name e.

(** A well-formed result: a success with its text and no error, or the
    failure record of a message that starts with the name of a backend. *)
Definition well_formed (r : ExtractionResult) : Prop :=
  (success r = true /\ exists t, text r = Some t /\ error r = None)
  \/ (exists e, r = failure e
                /\ exists a, tagged (backend_name a) e = true).

(** The error messages of each adapter. *)
Inductive error_of : adapter -> string -> Prop :=
| trafilatura_missing : error_of trafilatura_adapter "trafilatura not installed"
| trafilatura_empty : error_of trafilatura_adapter "trafilatura returned empty"
| trafilatura_raised e : error_of trafilatura_adapter ("trafilatura error: " ++ e)
| beautifulsoup_missing : error_of beautifulsoup_adapter "beautifulsoup4 not installed"
| beautifulsoup_raised e : error_of beautifulsoup_adapter ("beautifulsoup error: " ++ e)
| readability_missing : error_of readability_adapter "readability-lxml not installed"
| readability_no_bs4 : error_of readability_adapter "beautifulsoup4 not installed"
| readability_raised e : error_of readability_adapter ("readability error: " ++ e).

(** The results of each adapter. *)
Inductive adapter_output : adapter -> ExtractionResult -> Prop :=
| out_failure a e :
    error_of a e -> adapter_output a (failure e)
| out_trafilatura txt md te :
    PyStr.truthy txt = true ->
    adapter_output trafilatura_adapter
      {| success := true; text := Some txt;
         word_count := Z.of_nat (length (PyStr.split txt));
         metadata := md; method := Some "trafilatura"; error := None;
         title_extracted := te;
         headings := None; links := None; images := None |}
| out_readability txt te :
    adapter_output readability_adapter
      {| success := true; text := Some txt;
         word_count := Z.of_nat (length (PyStr.split txt));
         metadata := None; method := Some "readability"; error := None;
         title_extracted := te;
         headings := None; links := None; images := None |}
| out_beautifulsoup txt te hs anchors imgs :
    adapter_output beautifulsoup_adapter
      {| success := true; text := Some txt;
         word_count := Z.of_nat (length (PyStr.split txt));
         metadata := None; method := Some "beautifulsoup"; error := None;
         title_extracted := te;
         headings := Some (firstn 50 (map heading_of hs));
         links := Some (firstn 500 (map link_of
                          (filter (fun a => keep_href (fst a)) anchors)));
         images := Some (firstn 100 (map image_of imgs)) |}.

(** ** Sample installations and pages *)

Module Samples.

(** [n] words, each followed by a blank. *)
Fixpoint words_text (n : nat) : string :=
  match n with
  | O => ""
  | S n' => "word " ++ words_text n'
  end.

(** A trafilatura that finds a thirty-word article and no metadata. *)
Definition short_article : Trafilatura :=
  {| extract := fun _ => Ret (Some (words_text 30));
     extract_metadata := fun _ => Ret None |}.

(** A trafilatura that finds nothing: [extract] returns [None]. *)
Definition nothing_found : Trafilatura :=
  {| extract := fun _ => Ret None;
     extract_metadata := fun _ => Ret None |}.

(** A readability whose [summary()] rejects the document. *)
Definition unparseable : ReadabilityLib :=
  {| Document := fun _ =>
       Ret {| summary := Raise "Document is empty"; title := Ret "" |} |}.

(** The parse of a page without elements or text. *)
Definition blank_soup : Soup :=
  {| find_title := None; find_all_h := []; find_all_a := [];
     find_all_img := []; find_body := None; get_text := "" |}.

Definition blank_parser : BeautifulSoupLib :=
  {| BeautifulSoup := fun _ => Ret blank_soup;
     decompose_all := fun _ s => Ret s |}.

(** The adapters on the empty page, with the three libraries above. *)
Definition blank_run (a : adapter) : outcome ExtractionResult :=
  run_adapter (Some nothing_found) (Some blank_parser) (Some unparseable) a "".

(** A page with the four anchors of the link-filtering example. *)
Definition four_anchors : Soup :=
  {| find_title := Some "Links";
     find_all_h := [];
     find_all_a := [("#", "Top"); ("javascript:void(0)", "Menu");
                    ("/about", "About"); ("", "Nowhere")];
     find_all_img := [];
     find_body := Some {| find_main := None; find_article := None;
                          find_content := None;
                          body_get_text := "Top Menu About Nowhere" |};
     get_text := "Links Top Menu About Nowhere" |}.

Definition anchors_parser : BeautifulSoupLib :=
  {| BeautifulSoup := fun _ => Ret four_anchors;
     decompose_all := fun _ s => Ret s |}.

(** The text of the [n]-th heading of the page below. *)
Definition heading_label (n : nat) : string :=
  "Part " ++ String (ascii_of_nat (65 + n / 26))
               (String (ascii_of_nat (97 + n mod 26)) "").

(** A page with 120 headings. *)
Definition many_headings : Soup :=
  {| find_title := None;
     find_all_h := map (fun n => (h2, heading_label n)) (seq 0 120);
     find_all_a := [];
     find_all_img := [("/logo.png", Some "Logo"); ("/blank.gif", None)];
     find_body := None;
     get_text := "" |}.

Definition headings_parser : BeautifulSoupLib :=
  {| BeautifulSoup := fun _ => Ret many_headings;
     decompose_all := fun _ s => Ret s |}.

End Samples.

(** ** Further string functions *)

(** [sep.join(l)] *)
Fixpoint str_join (sep : string) (l : list string) : string :=
  match l with
  | [] => ""
  | x :: l' =>
      match l' with
      | [] => x
      | _ :: _ => x ++ sep ++ str_join sep l'
      end
  end.

(** No character of [s] is whitespace. *)
Fixpoint no_space (s : string) : bool :=
  match s with
  | EmptyString => true
  | String c s' => negb (PyStr.isspace c) && no_space s'
  end.

(** A word, as [split] yields them: non-empty and free of whitespace. *)
Definition is_word (w : string) : bool := PyStr.truthy w && no_space w.

(** Equality of adapters is decidable, for counting calls. *)
Definition adapter_eq_dec (a b : adapter) : {a = b} + {a <> b}.
Proof. decide equality. Defined.

(** ** Further invariants of results *)

(** The metadata of a result: no empty category or tag list, and the
    extracted title is the metadata's. *)
Definition metadata_sound (r : ExtractionResult) : Prop :=
  match metadata r with
  | Some m =>
      md_categories m <> Some [] /\ md_tags m <> Some []
      /\ title_extracted r = md_title m
  | None => method r = Some "trafilatura" -> title_extracted r = None
  end.

(** A text that is the single-blank join of its own words, with the word
    count that goes with it. *)
Definition normal_text (r : ExtractionResult) : Prop :=
  exists t, text r = Some t
            /\ t = str_join " " (PyStr.split t)
            /\ (word_count r = 0%Z <-> t = "").

(** ** URL schemes *)

(** [c] in lower case, for the letters of ASCII. *)
Definition ascii_lower (c : ascii) : ascii :=
  let n := nat_of_ascii c in
  if ((65 <=? n) && (n <=? 90))%nat then ascii_of_nat (n + 32) else c.

Fixpoint lower_ascii (s : string) : string :=
  match s with
  | EmptyString => EmptyString
  | String c s' => String (ascii_lower c) (lower_ascii s')
  end.

(** After the specification's words, a URL of the javascript scheme: the
    URL has the scheme [javascript], and a scheme is read without regard
    to case. This is not the test of the code, which is [keep_href]. *)
Definition javascript_scheme (u : string) : bool :=
  PyStr.startswith "javascript:" (lower_ascii u).

(** ** Further sample installations *)

Module MoreSamples.

(** A readability that finds an article. *)
Definition article_found : ReadabilityLib :=
  {| Document := fun _ =>
       Ret {| summary := Ret "<div><p>article</p></div>";
              title := Ret "An article" |} |}.

(** The parse of a fragment whose text has [n] words. *)
Definition soup_of_words (n : nat) : Soup :=
  {| find_title := None; find_all_h := []; find_all_a := [];
     find_all_img := []; find_body := None;
     get_text := Samples.words_text n |}.

(** A parser that reads [n] words and can clean the tree. *)
Definition parser_of_words (n : nat) : BeautifulSoupLib :=
  {| BeautifulSoup := fun _ => Ret (soup_of_words n);
     decompose_all := fun _ s => Ret s |}.

(** A parser that reads [n] words and fails while cleaning the tree. *)
Definition parser_cannot_clean (n : nat) : BeautifulSoupLib :=
  {| BeautifulSoup := fun _ => Ret (soup_of_words n);
     decompose_all := fun _ _ => Raise "maximum recursion depth exceeded" |}.

(** A trafilatura with an article of [n] words and its metadata. *)
Definition article_with_metadata (n : nat) : Trafilatura :=
  {| extract := fun _ => Ret (Some (Samples.words_text n));
     extract_metadata := fun _ =>
       Ret (Some {| tm_title := Some "A title"; tm_author := None;
                    tm_date := Some "2024-01-01"; tm_description := None;
                    tm_sitename := None; tm_categories := Some [];
                    tm_tags := Some ["ruins"]; tm_language := None |}) |}.

(** A page with a script link written with capitals and a plain link. *)
Definition capitals : Soup :=
  {| find_title := None;
     find_all_h := [];
     find_all_a := [("JavaScript:void(0)", "Menu"); ("/about", "About")];
     find_all_img := [];
     find_body := None;
     get_text := "Menu About" |}.

Definition capitals_parser : BeautifulSoupLib :=
  {| BeautifulSoup := fun _ => Ret capitals;
     decompose_all := fun _ s => Ret s |}.

End MoreSamples.

(** * The reset script ([resetdb.py])

    The script reads the platform, the environment and the file system,
    asks for a confirmation and removes files and directories. Its model
    is a state-and-exception monad over a world that holds the file system,
    what was printed, what is left to read on the standard input, and the
    log of the removals that were attempted.

    Every call to the outside may raise: the three removals and
    [iterdir], [Path.exists] (an [OSError] other than "not found"), and a
    write on the standard output by [print] or by the prompt of [input]
    (a text that the output cannot encode); [input] raises at the end of
    the standard input too. The characters of the messages that are not
    ASCII are written in UTF-8. *)

Module ResetDb.

(** [pathlib.Path], as its parts. *)
Definition Path : Type := list string.

(** [p / "segment"] for a segment without separator. *)
Definition div (p : Path) (segment : string) : Path := (p ++ [segment])%list.

(** [p.parent] and [p.name]. *)
Definition parent (p : Path) : Path := removelast p.
Definition name (p : Path) : string := last p "".

(** [s * n] *)
Fixpoint times (s : string) (n : nat) : string :=
  match n with
  | O => ""
  | S n' => s ++ times s n'
  end.

(** The line feed. *)
Definition nl : string := String "010" "".

(** [c.lower()] on the code points below 256. *)
Definition lower_char (c : ascii) : ascii :=
  let n := nat_of_ascii c in
  if (((65 <=? n) && (n <=? 90))
      || ((192 <=? n) && (n <=? 222) && negb (n =? 215)))%nat
  then ascii_of_nat (n + 32)
  else c.

(** [s.lower()] *)
Fixpoint lower (s : string) : string :=
  match s with
  | EmptyString => EmptyString
  | String c s' => String (lower_char c) (lower s')
  end.

(** [response in ("y", "yes")] *)
Definition is_yes (response : string) : bool :=
  String.eqb response "y" || String.eqb response "yes".

(** The machine the script runs on. A removal returns the file system it
    leaves and the message of the exception it raised, if any;
    [write_error] is the exception that writing a text on the standard
    output raises, if any. *)
Record Host : Type := mkHost {
  FS : Type;
  path_exists : FS -> Path -> outcome bool;       (* p.exists() *)
  unlink : FS -> Path -> FS * option string;      (* p.unlink() *)
  rmtree : FS -> Path -> FS * option string;      (* shutil.rmtree(p) *)
  rmdir : FS -> Path -> FS * option string;       (* p.rmdir() *)
  iterdir_any : FS -> Path -> outcome bool;       (* any(p.iterdir()) *)
  write_error : string -> option string;          (* sys.stdout.write(s) *)
  platform_system : string;                       (* platform.system() *)
  home : Path;                                    (* Path.home() *)
  environ_APPDATA : option string;                (* os.environ.get("APPDATA") *)
  cwd : Path;                                     (* Path.cwd() *)
  Path_of : string -> Path;                       (* Path(s) *)
  str_of : Path -> string                         (* str(p) *)
}.

(** A removal that was attempted. *)
Inductive removal : Type :=
| Unlink (p : Path)
| Rmtree (p : Path)
| Rmdir (p : Path).

Definition target (r : removal) : Path :=
  match r with
  | Unlink p | Rmtree p | Rmdir p => p
  end.

(** What was written on the standard output: a [print], or the prompt of
    an [input]. *)
Inductive written : Type :=
| printed (s : string)
| prompted (s : string).

Section Script.

Variable host : Host.

Record World : Type := mkWorld {
  fs : FS host;
  stdout : list written;
  stdin : list string;
  removals : list removal
}.

(** A step of the script: a value or an exception, and the world after. *)
Definition IO (A : Type) : Type := World -> outcome A * World.

Definition io_ret {A : Type} (a : A) : IO A := fun w => (Ret a, w).

Definition io_bind {A B : Type} (m : IO A) (k : A -> IO B) : IO B :=
  fun w =>
    match m w with
    | (Ret a, w') => k a w'
    | (Raise e, w') => (Raise e, w')
    end.

(** [try: body  except Exception as e: handler(str(e))] *)
Definition io_try {A : Type} (body : IO A) (handler : string -> IO A) : IO A :=
  fun w =>
    match body w with
    | (Ret a, w') => (Ret a, w')
    | (Raise e, w') => handler e w'
    end.

Declare Scope io_scope.
Delimit Scope io_scope with io.
Notation "x <- m ;; k" := (io_bind m (fun x => k))
  (at level 61, m at next level, right associativity) : io_scope.
Notation "m ;; k" := (io_bind m (fun _ => k))
  (at level 61, right associativity) : io_scope.
Local Open Scope io_scope.

(** [print(s)] *)
Definition print (s : string) : IO unit :=
  fun w =>
    match write_error host s with
    | Some e => (Raise e, w)
    | None =>
        (Ret tt, {| fs := fs w; stdout := (stdout w ++ [printed s])%list;
                    stdin := stdin w; removals := removals w |})
    end.

(** [input(prompt)]: the prompt is written, then the next line is read, or
    [EOFError] is raised. *)
Definition input (prompt : string) : IO string :=
  fun w =>
    match write_error host prompt with
    | Some e => (Raise e, w)
    | None =>
        let w' := {| fs := fs w; stdout := (stdout w ++ [prompted prompt])%list;
                     stdin := stdin w; removals := removals w |} in
        match stdin w with
        | [] => (Raise "EOF when reading a line", w')
        | line :: rest =>
            (Ret line, {| fs := fs w'; stdout := stdout w'; stdin := rest;
                          removals := removals w' |})
        end
    end.

(** [p.exists()] *)
Definition exists_ (p : Path) : IO bool :=
  fun w => (path_exists host (fs w) p, w).

(** A removal: it is logged, the file system becomes what the host
    leaves, and the exception of the host, if any, is raised. *)
Definition remove (op : FS host -> Path -> FS host * option string)
  (r : removal) : IO unit :=
  fun w =>
    let (fs', e) := op (fs w) (target r) in
    let w' := {| fs := fs'; stdout := stdout w; stdin := stdin w;
                 removals := (removals w ++ [r])%list |} in
    match e with
    | None => (Ret tt, w')
    | Some msg => (Raise msg, w')
    end.

(** [any(p.iterdir())] *)
Definition any_iterdir (p : Path) : IO bool :=
  fun w => (iterdir_any host (fs w) p, w).

(** [for x in l: body(x)] *)
Fixpoint for_each {A : Type} (l : list A) (body : A -> IO unit) : IO unit :=
  match l with
  | [] => io_ret tt
  | x :: l' => body x ;; for_each l' body
  end.

Definition get_config_dir : Path :=
  let system := platform_system host in
  if String.eqb system "Windows" then
    let appdata := match environ_APPDATA host with Some s => s | None => "" end in
    div (div (Path_of host appdata) "@au-archive") "desktop"
  else if String.eqb system "Darwin" then
    div (div (div (div (home host) "Library") "Application Support")
             "@au-archive") "desktop"
  else
    div (div (div (home host) ".config") "@au-archive") "desktop".

Definition get_dev_data_dir : IO (option Path) :=
  let dev_data := div (div (div (cwd host) "packages") "desktop") "data" in
  a <- exists_ dev_data ;;
  if a then io_ret (Some dev_data) else
  b <- exists_ (div (div (cwd host) "packages") "desktop") ;;
  if b then io_ret (Some dev_data) else io_ret None.

Definition get_default_db_path : Path :=
  div (div get_config_dir "data") "au-archive.db".

Definition get_bootstrap_config_path : Path := div get_config_dir "config.json".

Definition get_logs_dir : Path := div get_config_dir "logs".

Definition get_maintenance_history_path : Path :=
  div get_config_dir "maintenance-history.json".

Definition get_research_browser_dir : Path :=
  div get_config_dir "research-browser".

Definition remove_file (path : Path) (name_ : string) : IO bool :=
  e <- exists_ path ;;
  if e then
    io_try
      (remove (unlink host) (Unlink path) ;;
       print ("  ✓ Removed " ++ name_ ++ ": " ++ str_of host path) ;;
       io_ret true)
      (fun e =>
         print ("  ✗ Failed to remove " ++ name_ ++ ": " ++ e) ;;
         io_ret false)
  else
    print ("  - " ++ name_ ++ " not found: " ++ str_of host path) ;;
    io_ret false.

Definition remove_dir (path : Path) (name_ : string) : IO bool :=
  e <- exists_ path ;;
  if e then
    io_try
      (remove (rmtree host) (Rmtree path) ;;
       print ("  ✓ Removed " ++ name_ ++ ": " ++ str_of host path) ;;
       io_ret true)
      (fun e =>
         print ("  ✗ Failed to remove " ++ name_ ++ ": " ++ e) ;;
         io_ret false)
  else
    print ("  - " ++ name_ ++ " not found: " ++ str_of host path) ;;
    io_ret false.

(** [if d.exists(): try: (if not any(d.iterdir()): d.rmdir(); print(...))
    except Exception: pass] *)
Definition remove_if_empty (d : Path) (what : string) : IO unit :=
  e <- exists_ d ;;
  if e then
    io_try
      (a <- any_iterdir d ;;
       if negb a then
         remove (rmdir host) (Rmdir d) ;;
         print ("  ✓ Removed empty " ++ what ++ " directory: " ++ str_of host d)
       else io_ret tt)
      (fun _ => io_ret tt)
  else io_ret tt.

(** The truth value of an optional string: [if archive_path:]. *)
Definition given (s : option string) : option string :=
  match s with
  | Some x => if PyStr.truthy x then Some x else None
  | None => None
  end.

(** The listing that [reset_database] prints first. *)
Definition announce (archive_path : option string) (nuclear : bool)
  (dev_data_dir : option Path) : IO unit :=
  let config_dir := get_config_dir in
  print ("The following will be removed:" ++ nl) ;;
  print "  [Database]" ;;
  print ("    - Database: " ++ str_of host get_default_db_path) ;;
  print ("    - Data directory: " ++ str_of host (div config_dir "data")) ;;
  print ("    - Backups directory: " ++ str_of host (div config_dir "backups")) ;;
  print (nl ++ "  [Configuration]") ;;
  print ("    - Config: " ++ str_of host get_bootstrap_config_path) ;;
  print ("    - Maintenance history: " ++ str_of host get_maintenance_history_path) ;;
  print (nl ++ "  [Logs]") ;;
  print ("    - Logs directory: " ++ str_of host get_logs_dir) ;;
  match dev_data_dir with
  | Some dev =>
      print (nl ++ "  [Development]") ;;
      print ("    - Dev database: " ++ str_of host (div dev "au-archive.db")) ;;
      print ("    - Dev config: " ++ str_of host (div dev "config.json")) ;;
      print ("    - Dev backups: " ++ str_of host (div dev "backups"))
  | None => io_ret tt
  end ;;
  match given archive_path with
  | Some a =>
      let archive := Path_of host a in
      print (nl ++ "  [Archive Support Files]") ;;
      print ("    - Thumbnails: " ++ str_of host (div archive ".thumbnails")) ;;
      print ("    - Previews: " ++ str_of host (div archive ".previews")) ;;
      print ("    - Posters: " ++ str_of host (div archive ".posters")) ;;
      print ("    - Video proxies: "
             ++ str_of host (div (div archive ".cache") "video-proxies")) ;;
      print ("    - Database snapshots: " ++ str_of host (div archive "_database"))
  | None => io_ret tt
  end ;;
  (if nuclear then
     print (nl ++ "  [NUCLEAR - Research Browser]") ;;
     print ("    - Browser profile: " ++ str_of host get_research_browser_dir) ;;
     print "      (Clears saved logins, cookies, browsing history)"
   else io_ret tt) ;;
  print "".

(** The removals of [reset_database], the confirmation being given. *)
Definition remove_everything (archive_path : option string) (nuclear : bool)
  (dev_data_dir : option Path) : IO unit :=
  let db_path := get_default_db_path in
  let config_dir := get_config_dir in
  print (nl ++ times "=" 40) ;;
  print "Removing files..." ;;
  print (times "=" 40) ;;
  (* Database *)
  print (nl ++ "[Database]") ;;
  remove_file db_path "Database" ;;
  let data_dir := div config_dir "data" in
  e <- exists_ data_dir ;;
  (if e then
     for_each ["-wal"; "-shm"] (fun suffix =>
       remove_file (div (parent db_path) (name db_path ++ suffix))
                   ("Database " ++ suffix ++ " file") ;;
       io_ret tt) ;;
     io_try
       (a <- any_iterdir data_dir ;;
        if negb a then
          remove (rmdir host) (Rmdir data_dir) ;;
          print ("  ✓ Removed empty data directory: " ++ str_of host data_dir)
        else io_ret tt)
       (fun _ => io_ret tt)
   else io_ret tt) ;;
  remove_dir (div config_dir "backups") "Backups directory" ;;
  (* Configuration *)
  print (nl ++ "[Configuration]") ;;
  remove_file get_bootstrap_config_path "Config" ;;
  remove_file get_maintenance_history_path "Maintenance history" ;;
  (* Logs *)
  print (nl ++ "[Logs]") ;;
  remove_dir get_logs_dir "Logs directory" ;;
  (* Development *)
  match dev_data_dir with
  | Some dev =>
      print (nl ++ "[Development]") ;;
      remove_file (div dev "au-archive.db") "Dev database" ;;
      for_each ["-wal"; "-shm"] (fun suffix =>
        remove_file (div dev ("au-archive.db" ++ suffix))
                    ("Dev database " ++ suffix ++ " file") ;;
        io_ret tt) ;;
      remove_file (div dev "config.json") "Dev config" ;;
      remove_dir (div dev "backups") "Dev backups directory" ;;
      io_ret tt
  | None => io_ret tt
  end ;;
  (* Archive support *)
  match given archive_path with
  | Some a =>
      let archive := Path_of host a in
      print (nl ++ "[Archive Support Files]") ;;
      remove_dir (div archive ".thumbnails") "Thumbnails directory" ;;
      remove_dir (div archive ".previews") "Previews directory" ;;
      remove_dir (div archive ".posters") "Posters directory" ;;
      remove_dir (div (div archive ".cache") "video-proxies") "Video proxies cache" ;;
      remove_dir (div archive "_database") "Database snapshots" ;;
      remove_if_empty (div archive ".cache") "cache"
  | None => io_ret tt
  end ;;
  (* Nuclear: research browser *)
  (if nuclear then
     print (nl ++ "[NUCLEAR - Research Browser]") ;;
     remove_dir get_research_browser_dir "Research browser profile" ;;
     io_ret tt
   else io_ret tt) ;;
  print (nl ++ times "=" 40) ;;
  print "✓ Reset complete!" ;;
  print (times "=" 40 ++ nl).

Definition reset_database (archive_path : option string) (force nuclear : bool)
  : IO unit :=
  print (nl ++ "=== AU Archive Reset Script ===" ++ nl) ;;
  dev_data_dir <- get_dev_data_dir ;;
  announce archive_path nuclear dev_data_dir ;;
  proceed <-
    (if negb force then
       line <- input (if nuclear
                      then "⚠️  NUCLEAR mode enabled. Are you SURE? [y/N]: "
                      else "Are you sure you want to proceed? [y/N]: ") ;;
       let response := lower (PyStr.strip line) in
       io_ret (is_yes response)
     else io_ret true) ;;
  if negb proceed then print "Aborted."
  else remove_everything archive_path nuclear dev_data_dir.

(** The parsed command line: [--archive], [--force], [--db-only],
    [--nuclear]. *)
Record Args : Type := mkArgs {
  archive : option string;
  force : bool;
  db_only : bool;
  nuclear : bool
}.

Definition main (args : Args) : IO unit :=
  if db_only args then
    print (nl ++ "=== AU Archive Reset Script (DB Only) ===" ++ nl) ;;
    let db_path := get_default_db_path in
    dev_data_dir <- get_dev_data_dir ;;
    proceed <-
      (if negb (force args) then
         print ("Will remove: " ++ str_of host db_path) ;;
         match dev_data_dir with
         | Some dev =>
             print ("Will remove: " ++ str_of host (div dev "au-archive.db"))
         | None => io_ret tt
         end ;;
         line <- input "Are you sure? [y/N]: " ;;
         let response := lower (PyStr.strip line) in
         io_ret (is_yes response)
       else io_ret true) ;;
    if negb proceed then print "Aborted."
    else
      print (nl ++ "Removing database...") ;;
      remove_file db_path "Database" ;;
      for_each ["-wal"; "-shm"] (fun suffix =>
        let wal_path := div (parent db_path) (name db_path ++ suffix) in
        e <- exists_ wal_path ;;
        if e then
          remove_file wal_path ("Database " ++ suffix ++ " file") ;; io_ret tt
        else io_ret tt) ;;
      match dev_data_dir with
      | Some dev =>
          print (nl ++ "Removing dev database...") ;;
          remove_file (div dev "au-archive.db") "Dev database" ;;
          for_each ["-wal"; "-shm"] (fun suffix =>
            remove_file (div dev ("au-archive.db" ++ suffix))
                        ("Dev database " ++ suffix ++ " file") ;;
            io_ret tt)
      | None => io_ret tt
      end ;;
      print (nl ++ "✓ Done!" ++ nl)
  else
    reset_database (archive args) (force args) (nuclear args).

(** The paths that a full reset may remove. *)
Definition footprint (archive_path : option string) (nuclear_ : bool)
  (dev_data_dir : option Path) : list Path :=
  ([get_default_db_path;
    div (div get_config_dir "data") "au-archive.db-wal";
    div (div get_config_dir "data") "au-archive.db-shm";
    div get_config_dir "data";
    div get_config_dir "backups";
    get_bootstrap_config_path;
    get_maintenance_history_path;
    get_logs_dir]
   ++ match dev_data_dir with
      | Some dev =>
          [div dev "au-archive.db"; div dev "au-archive.db-wal";
           div dev "au-archive.db-shm"; div dev "config.json";
           div dev "backups"]
      | None => []
      end
   ++ match given archive_path with
      | Some a =>
          let archive := Path_of host a in
          [div archive ".thumbnails"; div archive ".previews";
           div archive ".posters"; div (div archive ".cache") "video-proxies";
           div archive "_database"; div archive ".cache"]
      | None => []
      end
   ++ (if nuclear_ then [get_research_browser_dir] else []))%list.

(** The database files, which are all that [--db-only] may remove. *)
Definition database_files (dev_data_dir : option Path) : list Path :=
  ([get_default_db_path;
    div (div get_config_dir "data") "au-archive.db-wal";
    div (div get_config_dir "data") "au-archive.db-shm"]
   ++ match dev_data_dir with
      | Some dev =>
          [div dev "au-archive.db"; div dev "au-archive.db-wal";
           div dev "au-archive.db-shm"]
      | None => []
      end)%list.

(** What [get_dev_data_dir()] returns in a world. *)
Definition dev_data_dir_of (w : World) : option Path :=
  match fst (get_dev_data_dir w) with
  | Ret d => d
  | Raise _ => None
  end.


(** A step that may read the standard input or raise, and still attempts
    only removals that satisfy [P], through which alone it changes the file
    system. *)
Definition confined {A : Type} (P : removal -> Prop) (m : IO A) : Prop :=
  forall w, exists l,
    removals (snd (m w)) = (removals w ++ l)%list
    /\ Forall P l
    /\ (l = [] -> fs (snd (m w)) = fs w).

(** A step that neither reads the standard input nor attempts a removal
    nor changes the file system, whether it returns or raises. *)
Definition calm {A : Type} (m : IO A) : Prop :=
  forall w, fs (snd (m w)) = fs w
            /\ removals (snd (m w)) = removals w
            /\ stdin (snd (m w)) = stdin w.

(** A host on which every text can be written and [Path.exists] always
    answers. *)
Definition obliging : Prop :=
  (forall s, write_error host s = None)
  /\ (forall disk p, exists b, path_exists host disk p = Ret b).

End Script.

Arguments fs {host} w.
Arguments stdout {host} w.
Arguments stdin {host} w.
Arguments removals {host} w.

(** Hosts for examples: a Linux machine whose file system is the list of
    the paths that exist, and where every removal succeeds. *)
Module Box.

Definition path_eq_dec : forall p q : Path, {p = q} + {p <> q} :=
  list_eq_dec string_dec.

Definition present (fs : list Path) (p : Path) : bool :=
  if in_dec path_eq_dec p fs then true else false.

(** [p] is [q] or above it. *)
Fixpoint above (p q : Path) : bool :=
  match p, q with
  | [], _ => true
  | x :: p', y :: q' => String.eqb x y && above p' q'
  | _ :: _, [] => false
  end.

Definition linux : Host :=
  {| FS := list Path;
     path_exists := fun fs p => Ret (present fs p);
     unlink := fun fs p => (List.remove path_eq_dec p fs, None);
     rmtree := fun fs p => (filter (fun q => negb (above p q)) fs, None);
     rmdir := fun fs p => (List.remove path_eq_dec p fs, None);
     iterdir_any := fun fs p =>
       Ret (existsb (fun q => if path_eq_dec (removelast q) p
                              then true else false) fs);
     write_error := fun _ => None;
     platform_system := "Linux";
     home := ["/"; "home"; "me"];
     environ_APPDATA := None;
     cwd := ["/"; "home"; "me"; "au-archive"];
     Path_of := fun s => [s];
     str_of := String.concat "/" |}.

(** Whether [s] is made of ASCII characters. *)
Fixpoint is_ascii (s : string) : bool :=
  match s with
  | EmptyString => true
  | String c s' => (nat_of_ascii c <? 128)%nat && is_ascii s'
  end.

(** The same machine with a standard output that encodes ASCII only. *)
Definition teletype : Host :=
  {| FS := list Path;
     path_exists := fun fs p => Ret (present fs p);
     unlink := fun fs p => (List.remove path_eq_dec p fs, None);
     rmtree := fun fs p => (filter (fun q => negb (above p q)) fs, None);
     rmdir := fun fs p => (List.remove path_eq_dec p fs, None);
     iterdir_any := fun fs p =>
       Ret (existsb (fun q => if path_eq_dec (removelast q) p
                              then true else false) fs);
     write_error := fun s =>
       if is_ascii s then None
       else Some "'ascii' codec can't encode character";
     platform_system := "Linux";
     home := ["/"; "home"; "me"];
     environ_APPDATA := None;
     cwd := ["/"; "home"; "me"; "au-archive"];
     Path_of := fun s => [s];
     str_of := String.concat "/" |}.

(** The configuration directory of that machine. *)
Definition config : Path := ["/"; "home"; "me"; ".config"; "@au-archive"; "desktop"].

(** A world with a database, its write-ahead log, a configuration file
    and a browser profile, and [lines] waiting on the standard input. *)
Definition installed (lines : list string) : World linux :=
  mkWorld linux
    [div (div config "data") "au-archive.db";
     div (div config "data") "au-archive.db-wal";
     div config "data";
     div config "config.json";
     div config "research-browser"]
    [] lines [].

End Box.

End ResetDb.

(** * Properties *)

(** ** The string functions on small inputs *)

Example split_words :
  PyStr.split ("  two" ++ String "010" (String "009" "words ")) = ["two"; "words"].
Proof. reflexivity. Qed.

Example split_blank : PyStr.split "   " = [].
Proof. reflexivity. Qed.

Example sub_ws_collapses :
  PyStr.sub_ws false ("a " ++ String "010" " b  ") = "a b ".
Proof. reflexivity. Qed.

Example strip_both_ends : PyStr.strip "  a b  " = "a b".
Proof. reflexivity. Qed.

Example strip_blank : PyStr.strip (PyStr.sub_ws false "  ") = "".
Proof. reflexivity. Qed.

Example slice_to_short : PyStr.slice_to 3 "ab" = "ab".
Proof. reflexivity. Qed.

Example slice_to_long : PyStr.slice_to 3 "abcdef" = "abc".
Proof. reflexivity. Qed.

Example keep_href_examples :
  map keep_href ["#"; "#top"; "javascript:void(0)"; "/about"; ""; "JavaScript:x"]
  = [false; false; false; true; false; true].
Proof. reflexivity. Qed.

Example thirty_words :
  length (PyStr.split (Samples.words_text 30)) = 30%nat.
Proof. reflexivity. Qed.

Lemma heading_level_range (h : heading_name * string) :
  (1 <= level (heading_of h) <= 6)%Z.
Proof.
  destruct h as [[] t]; cbv -[Z.le]; lia.
Qed.

(** ** Strings and lists *)

Lemma prefix_app (p s : string) : prefix p (p ++ s) = true.
Proof.
  induction p as [|c p IH]; simpl.
  - now destruct s.
  - destruct (ascii_dec c c); [exact IH | congruence].
Qed.

Lemma slice_to_length (n : nat) (s : string) :
  (String.length (PyStr.slice_to n s) <= n)%nat.
Proof.
  unfold PyStr.slice_to.
  revert s; induction n as [|n IH]; intros [|c s]; simpl; try lia.
  specialize (IH s); lia.
Qed.

Lemma In_firstn {A : Type} (n : nat) (x : A) (l : list A) :
  In x (firstn n l) -> In x l.
Proof.
  revert l; induction n as [|n IH]; intros [|y l]; simpl; try tauto.
  intros [->|H]; auto.
Qed.

Lemma Some_eq {A : Type} (x y : A) : Some x = Some y -> x = y.
Proof. congruence. Qed.

Lemma map_injective {A B : Type} (f : A -> B) :
  (forall x y, f x = f y -> x = y) ->
  forall l l', map f l = map f l' -> l = l'.
Proof.
  intros Hf; induction l as [|x l IH]; intros [|y l']; simpl;
    try discriminate; auto.
  intros H; injection H as Hx Hl; f_equal; auto.
Qed.

(** ** What the filter keeps *)

Lemma keep_href_sound (u : string) :
  keep_href u = true -> ~ excluded_url u.
Proof.
  unfold keep_href, excluded_url; intros H.
  apply andb_prop in H as [H Hjs]; apply andb_prop in H as [Hne Hfrag].
  apply negb_true_iff in Hjs, Hfrag.
  intros [->|[H|H]]; [discriminate | congruence | congruence].
Qed.

Lemma keep_href_complete (u : string) :
  ~ excluded_url u -> keep_href u = true.
Proof.
  unfold keep_href, excluded_url; intros H.
  destruct u as [|c u]; [tauto|]; simpl PyStr.truthy.
  destruct (PyStr.startswith "#" (String c u)); [tauto|].
  destruct (PyStr.startswith "javascript:" (String c u)); [tauto|].
  reflexivity.
Qed.

Lemma kept_links_clean (n : nat) (anchors : list (string * string)) (l : link) :
  In l (firstn n (map link_of (filter (fun a => keep_href (fst a)) anchors))) ->
  ~ excluded_url (url l).
Proof.
  intros H; apply In_firstn, in_map_iff in H as [a [<- Ha]].
  apply filter_In in Ha as [_ Ha].
  now apply keep_href_sound.
Qed.

Lemma alt_of_length (a : option string) (s : string) :
  alt_of a = Some s -> (String.length s <= 200)%nat.
Proof.
  destruct a as [t|]; simpl; [|discriminate].
  destruct (PyStr.truthy t); [|discriminate].
  intros H; injection H as <-; apply slice_to_length.
Qed.

(** ** The adapters return, and what they return *)

Create HintDb extraction.
#[local] Hint Constructors error_of adapter_output : extraction.

Ltac case_outcome e :=
  destruct e as [?|?] eqn:?; cbn -[append]; eauto 6 with extraction.

Lemma trafilatura_try_output (t : Trafilatura) (html : string) :
  match trafilatura_try t html with
  | Ret r => adapter_output trafilatura_adapter r
  | Raise e => extract t html = Raise e \/ extract_metadata t html = Raise e
  end.
Proof.
  unfold trafilatura_try, bind.
  case_outcome (extract t html).
  destruct a as [txt|]; [|eauto with extraction].
  destruct (PyStr.truthy txt) eqn:Htxt; cbn -[append]; [|eauto with extraction].
  case_outcome (extract_metadata t html).
Qed.

Lemma beautifulsoup_try_output (b : BeautifulSoupLib) (html : string) :
  match beautifulsoup_try b html with
  | Ret r => adapter_output beautifulsoup_adapter r
  | Raise e =>
      BeautifulSoup b html = Raise e
      \/ exists soup0, BeautifulSoup b html = Ret soup0
                       /\ decompose_all b unwanted soup0 = Raise e
  end.
Proof.
  unfold beautifulsoup_try, bind.
  case_outcome (BeautifulSoup b html).
  case_outcome (decompose_all b unwanted a).
Qed.

Lemma readability_try_output (rd : ReadabilityLib) (b : BeautifulSoupLib)
  (html : string) :
  match readability_try rd b html with
  | Ret r => adapter_output readability_adapter r
  | Raise e => True
  end.
Proof.
  unfold readability_try, bind.
  case_outcome (Document rd html).
  case_outcome (summary a).
  case_outcome (title a).
  case_outcome (BeautifulSoup b a0).
Qed.

Section AdapterFacts.

Variable get_trafilatura : option Trafilatura.
Variable get_beautifulsoup : option BeautifulSoupLib.
Variable get_readability : option ReadabilityLib.

Local Abbreviation run :=
  (run_adapter get_trafilatura get_beautifulsoup get_readability).
Local Abbreviation value_of :=
  (result_of get_trafilatura get_beautifulsoup get_readability).
Local Abbreviation orchestrate :=
  (extract_text get_trafilatura get_beautifulsoup get_readability).

Lemma trafilatura_output html :
  exists r, extract_with_trafilatura get_trafilatura html = Ret r
            /\ adapter_output trafilatura_adapter r.
Proof.
  unfold extract_with_trafilatura, try_except.
  destruct get_trafilatura as [t|]; [|eauto with extraction].
  pose proof (trafilatura_try_output t html) as H.
  destruct (trafilatura_try t html); eauto with extraction.
Qed.

Lemma beautifulsoup_output html :
  exists r, extract_with_beautifulsoup get_beautifulsoup html = Ret r
            /\ adapter_output beautifulsoup_adapter r.
Proof.
  unfold extract_with_beautifulsoup, try_except.
  destruct get_beautifulsoup as [b|]; [|eauto with extraction].
  pose proof (beautifulsoup_try_output b html) as H.
  destruct (beautifulsoup_try b html); eauto with extraction.
Qed.

Lemma readability_output html :
  exists r, extract_with_readability get_beautifulsoup get_readability html = Ret r
            /\ adapter_output readability_adapter r.
Proof.
  unfold extract_with_readability, try_except.
  destruct get_readability as [rd|]; [|eauto with extraction].
  destruct get_beautifulsoup as [b|]; [|eauto with extraction].
  pose proof (readability_try_output rd b html) as H.
  destruct (readability_try rd b html); eauto with extraction.
Qed.

Lemma run_adapter_output a html :
  exists r, run a html = Ret r /\ adapter_output a r.
Proof.
  destruct a; simpl.
  - apply trafilatura_output.
  - apply readability_output.
  - apply beautifulsoup_output.
Qed.

Lemma run_adapter_result_of a html : run a html = Ret (value_of a html).
Proof.
  unfold result_of.
  destruct (run_adapter_output a html) as [r [-> _]]; reflexivity.
Qed.

Lemma result_of_output a html : adapter_output a (value_of a html).
Proof.
  unfold result_of.
  destruct (run_adapter_output a html) as [r [-> H]]; exact H.
Qed.

Lemma gate_agrees r :
  success r && (50 <? word_count r)%Z = passes r.
Proof. unfold passes. now rewrite Z.gtb_ltb. Qed.

(** The orchestrator, unfolded on the values of the three adapters. *)
Lemma extract_text_unfold html :
  orchestrate html =
    (attempted (value_of trafilatura_adapter html)
               (value_of readability_adapter html),
     Ret (five_steps (value_of trafilatura_adapter html)
                     (value_of readability_adapter html)
                     (value_of beautifulsoup_adapter html))).
Proof.
  unfold extract_text, call, tbind, tret, attempted, five_steps.
  rewrite (run_adapter_result_of trafilatura_adapter).
  rewrite !gate_agrees.
  destruct (passes (value_of trafilatura_adapter html)); [reflexivity|].
  rewrite (run_adapter_result_of readability_adapter).
  rewrite !gate_agrees.
  destruct (passes (value_of readability_adapter html)); [reflexivity|].
  rewrite (run_adapter_result_of beautifulsoup_adapter).
  destruct (success (value_of beautifulsoup_adapter html)); [reflexivity|].
  destruct (success (value_of trafilatura_adapter html)); reflexivity.
Qed.

(** The orchestrator returns the result of one of the adapters. *)
Lemma extract_text_output html :
  exists a r, returned (orchestrate html) = Ret r
              /\ run a html = Ret r /\ adapter_output a r.
Proof.
  rewrite extract_text_unfold; unfold returned, five_steps; cbn [snd].
  destruct (passes (value_of trafilatura_adapter html)).
  { exists trafilatura_adapter; eauto using run_adapter_result_of, result_of_output. }
  destruct (passes (value_of readability_adapter html)).
  { exists readability_adapter; eauto using run_adapter_result_of, result_of_output. }
  destruct (success (value_of beautifulsoup_adapter html)).
  { exists beautifulsoup_adapter; eauto using run_adapter_result_of, result_of_output. }
  exists trafilatura_adapter.
  destruct (success (value_of trafilatura_adapter html));
    eauto using run_adapter_result_of, result_of_output.
Qed.

End AdapterFacts.

(** ** Consequences of the shape of adapter results *)

Lemma output_method_iff_success a r :
  adapter_output a r -> (method r <> None <-> success r = true).
Proof.
  destruct 1; simpl; split; congruence.
Qed.

Lemma output_word_count a r :
  adapter_output a r ->
  word_count r =
    match text r with
    | Some t => Z.of_nat (length (PyStr.split t))
    | None => 0%Z
    end.
Proof.
  destruct 1; reflexivity.
Qed.

Lemma output_failure a r :
  adapter_output a r -> success r = false ->
  exists e, r = failure e /\ error_of a e.
Proof.
  destruct 1; simpl; intros Hs; try discriminate; eauto.
Qed.

Lemma output_success a r :
  adapter_output a r -> success r = true ->
  exists t, text r = Some t /\ error r = None
            /\ (method r = Some "trafilatura" -> t <> "").
Proof.
  destruct 1; simpl; intros Hs; try discriminate;
    eexists; repeat split; try discriminate.
  intros _ ->; discriminate.
Qed.

Lemma output_links_clean a r ls l :
  adapter_output a r -> links r = Some ls -> In l ls -> ~ excluded_url (url l).
Proof.
  destruct 1; cbn [links failure]; intros Hls; try discriminate.
  apply Some_eq in Hls; subst ls; apply kept_links_clean.
Qed.

Lemma output_within_caps a r : adapter_output a r -> within_caps r.
Proof.
  destruct 1; unfold within_caps; cbn [headings links images failure];
    try (repeat split; intros; discriminate).
  split; [|split]; intros ? Heq; apply Some_eq in Heq; subst.
  - split; [apply firstn_le_length|].
    intros h Hh; apply In_firstn, in_map_iff in Hh as [x [<- _]].
    apply slice_to_length.
  - split; [apply firstn_le_length|].
    intros l Hl; apply In_firstn, in_map_iff in Hl as [x [<- _]].
    apply slice_to_length.
  - split; [apply firstn_le_length|].
    intros i s Hi; apply In_firstn, in_map_iff in Hi as [x [<- _]].
    apply alt_of_length.
Qed.

(** Every message of an adapter names that adapter's backend, but for the
    one by which the readability adapter reports that beautifulsoup4, which
    it needs too, is the library that could not be loaded. *)
Lemma error_of_tagged a e :
  error_of a e ->
  tagged (backend_name a) e = true
  \/ (a = readability_adapter /\ e = "beautifulsoup4 not installed"
      /\ tagged (backend_name beautifulsoup_adapter) e = true).
Proof.
  destruct 1; try (left; reflexivity); try (left; apply prefix_app).
  right; repeat split.
Qed.

Lemma five_steps_failure p s b :
  success (five_steps p s b) = false -> five_steps p s b = p.
Proof.
  unfold five_steps.
  destruct (passes p); [reflexivity|].
  destruct (passes s) eqn:Hs.
  { unfold passes in Hs. apply andb_prop in Hs as [-> _]; discriminate. }
  destruct (success b) eqn:Hb; [congruence|].
  now destruct (success p).
Qed.

(** ** [asdict] loses nothing *)

Lemma of_option_inj {A : Type} (f : A -> value) :
  (forall a, f a <> VNone) ->
  (forall x y, f x = f y -> x = y) ->
  forall o o', of_option f o = of_option f o' -> o = o'.
Proof.
  intros Hnone Hinj [x|] [y|]; simpl; intros H.
  - f_equal; auto.
  - now apply Hnone in H.
  - symmetry in H; now apply Hnone in H.
  - reflexivity.
Qed.

Lemma VStr_opt_inj o o' : of_option VStr o = of_option VStr o' -> o = o'.
Proof.
  apply of_option_inj; [discriminate | congruence].
Qed.

Lemma VStrs_opt_inj o o' : of_option VStrs o = of_option VStrs o' -> o = o'.
Proof.
  apply of_option_inj; [discriminate|].
  unfold VStrs; intros l l' H; injection H as H.
  apply (map_injective VStr); [congruence | exact H].
Qed.

Lemma asdict_metadata_inj m m' :
  asdict_metadata m = asdict_metadata m' -> m = m'.
Proof.
  destruct m, m'; unfold asdict_metadata; cbn; intros H.
  injection H as H1 H2 H3 H4 H5 H6 H7 H8.
  apply VStr_opt_inj in H1, H2, H3, H4, H5, H8.
  apply VStrs_opt_inj in H6, H7.
  congruence.
Qed.

Lemma value_of_heading_inj h h' :
  value_of_heading h = value_of_heading h' -> h = h'.
Proof.
  destruct h, h'; unfold value_of_heading; cbn; congruence.
Qed.

Lemma value_of_link_inj l l' :
  value_of_link l = value_of_link l' -> l = l'.
Proof.
  destruct l, l'; unfold value_of_link; cbn; congruence.
Qed.

Lemma value_of_image_inj i i' :
  value_of_image i = value_of_image i' -> i = i'.
Proof.
  destruct i, i'; unfold value_of_image; cbn; intros H.
  injection H as H1 H2; apply VStr_opt_inj in H2; congruence.
Qed.

Lemma VList_opt_inj {A : Type} (f : A -> value) o o' :
  (forall x y, f x = f y -> x = y) ->
  of_option (fun l => VList (map f l)) o = of_option (fun l => VList (map f l)) o' ->
  o = o'.
Proof.
  intros Hf; apply of_option_inj; [discriminate|].
  intros l l' H; injection H as H; now apply (map_injective f).
Qed.

Lemma asdict_inj r r' : asdict r = asdict r' -> r = r'.
Proof.
  destruct r, r'; unfold asdict, asdict_fields; cbn; intros H.
  injection H as H1 H2 H3 H4 H5 H6 H7 H8 H9 H10.
  apply VStr_opt_inj in H2, H5, H6, H7.
  apply (of_option_inj asdict_metadata) in H4;
    [|discriminate | apply asdict_metadata_inj].
  apply VList_opt_inj in H8; [|apply value_of_heading_inj].
  apply VList_opt_inj in H9; [|apply value_of_link_inj].
  apply VList_opt_inj in H10; [|apply value_of_image_inj].
  congruence.
Qed.

Lemma output_method_trafilatura r :
  adapter_output trafilatura_adapter r -> success r = true ->
  method r = Some "trafilatura".
Proof.
  intros H; inversion H; subst; cbn; congruence.
Qed.

Lemma output_links_absent a r :
  adapter_output a r -> a <> beautifulsoup_adapter -> links r = None.
Proof.
  destruct 1; try reflexivity; congruence.
Qed.

Lemma output_well_formed a r : adapter_output a r -> well_formed r.
Proof.
  intros H; unfold well_formed.
  destruct (success r) eqn:Hs.
  - left; split; [reflexivity|].
    destruct (output_success a r H Hs) as (t & Ht & He & _); eauto.
  - right.
    destruct (output_failure a r H Hs) as (e & -> & He).
    exists e; split; [reflexivity|].
    destruct (error_of_tagged a e He) as [Ht|(_ & _ & Ht)]; eauto.
Qed.

(** * The claims *)

(** A successful result of an adapter: its text, its method and its word
    count. *)
Lemma output_text_by_method a r :
  adapter_output a r -> success r = true ->
  exists t, text r = Some t /\ error r = None
            /\ method r = Some (backend_name a)
            /\ word_count r = Z.of_nat (length (PyStr.split t))
            /\ (a = trafilatura_adapter -> t <> "").
Proof.
  destruct 1; cbn [success failure]; intros Hs; try discriminate;
    eexists; cbn [text error method word_count backend_name];
    repeat split; try discriminate.
  intros _ ->; discriminate.
Qed.

(** The text of what the five steps select is empty only in a
    beautifulsoup result. *)
Lemma selected_text p s b :
  adapter_output trafilatura_adapter p ->
  adapter_output readability_adapter s ->
  adapter_output beautifulsoup_adapter b ->
  (success (five_steps p s b) = true
   /\ exists t, text (five_steps p s b) = Some t
                /\ error (five_steps p s b) = None
                /\ (method (five_steps p s b) <> Some "beautifulsoup" -> t <> ""))
  \/ (success (five_steps p s b) = false
      /\ text (five_steps p s b) = None
      /\ exists e, error (five_steps p s b) = Some e).
Proof.
  intros Hp Hs Hb.
  destruct (success (five_steps p s b)) eqn:Hok.
  2: { right; split; [reflexivity|].
       pose proof (five_steps_failure p s b Hok) as Hsel.
       rewrite Hsel in Hok |- *.
       destruct (output_failure _ _ Hp Hok) as (e & -> & _); cbn; eauto. }
  left; split; [reflexivity|].
  assert (Htraf : success p = true ->
            exists t, text p = Some t /\ error p = None
                      /\ (method p <> Some "beautifulsoup" -> t <> "")).
  { intros Hsp.
    destruct (output_text_by_method _ _ Hp Hsp) as (t & Ht & He & _ & _ & Hne).
    exists t; auto. }
  revert Hok; unfold five_steps.
  destruct (passes p) eqn:Hpp.
  { intros _; apply Htraf.
    unfold passes in Hpp; now apply andb_prop in Hpp as [-> _]. }
  destruct (passes s) eqn:Hps.
  { intros _; unfold passes in Hps; apply andb_prop in Hps as [Hss Hws].
    destruct (output_text_by_method _ _ Hs Hss) as (t & Ht & He & _ & Hw & _).
    exists t; repeat split; auto.
    intros _ ->; rewrite Hw in Hws; discriminate. }
  destruct (success b) eqn:Hsb.
  { intros _.
    destruct (output_text_by_method _ _ Hb Hsb) as (t & Ht & He & Hm & _).
    exists t; split; [exact Ht|]; split; [exact He|].
    intros Hne _; apply Hne; exact Hm. }
  destruct (success p) eqn:Hsp; cbn iota; intros Hok;
    [now apply Htraf | congruence].
Qed.

Section Properties.

Variable get_trafilatura : option Trafilatura.
Variable get_beautifulsoup : option BeautifulSoupLib.
Variable get_readability : option ReadabilityLib.

Local Abbreviation run :=
  (run_adapter get_trafilatura get_beautifulsoup get_readability).
Local Abbreviation value_of :=
  (result_of get_trafilatura get_beautifulsoup get_readability).
Local Abbreviation orchestrate :=
  (extract_text get_trafilatura get_beautifulsoup get_readability).

Ltac chosen html a r Hr Hrun Hout :=
  destruct (extract_text_output get_trafilatura get_beautifulsoup
              get_readability html) as (a & r & Hr & Hrun & Hout).

(** C1. For every HTML input each adapter returns a result, and
    [extract_text] returns what the five-step algorithm selects from the
    three: the trafilatura result if it succeeded with more than 50
    words, else the readability result under the same gate, else the
    beautifulsoup result if it succeeded, else the trafilatura result
    (succeeded or not, so that a final error is trafilatura's). The
    adapters it calls are trafilatura, then readability, then
    beautifulsoup, as far as needed and never twice. *)
Theorem extract_text_five_steps (html : string) :
  exists primary secondary structural,
    run trafilatura_adapter html = Ret primary
    /\ run readability_adapter html = Ret secondary
    /\ run beautifulsoup_adapter html = Ret structural
    /\ returned (orchestrate html) = Ret (five_steps primary secondary structural)
    /\ calls (orchestrate html) = attempted primary secondary
    /\ NoDup (calls (orchestrate html))
    /\ (success (five_steps primary secondary structural) = false ->
        five_steps primary secondary structural = primary
        /\ error (five_steps primary secondary structural) = error primary).
Proof.
  exists (value_of trafilatura_adapter html),
         (value_of readability_adapter html),
         (value_of beautifulsoup_adapter html).
  rewrite extract_text_unfold; unfold returned, calls; cbn [fst snd].
  repeat split; try apply run_adapter_result_of.
  - unfold attempted.
    repeat match goal with |- context [if ?b then _ else _] => destruct b end;
      repeat (constructor; simpl); intuition congruence.
  - now apply five_steps_failure.
  - now rewrite five_steps_failure.
Qed.

(** C2, amended. If the trafilatura adapter succeeds with a word count of
    30 and the readability and beautifulsoup adapters both fail, the result
    of [extract_text] is the trafilatura result, with [success] true, a
    word count of 30 and [method] equal to "trafilatura", as the adapter
    set it. *)
Theorem partial_success_keeps_method (html : string)
  (primary secondary structural : ExtractionResult) :
  run trafilatura_adapter html = Ret primary ->
  run readability_adapter html = Ret secondary ->
  run beautifulsoup_adapter html = Ret structural ->
  success primary = true -> word_count primary = 30%Z ->
  success secondary = false -> success structural = false ->
  exists r, returned (orchestrate html) = Ret r
            /\ r = primary /\ success r = true /\ word_count r = 30%Z
            /\ method r = Some "trafilatura".
Proof.
  intros Hp Hs Hb Hsp Hwp Hss Hsb.
  pose proof (result_of_output get_trafilatura get_beautifulsoup
                get_readability trafilatura_adapter html) as Hout.
  rewrite extract_text_unfold; unfold returned; cbn [snd].
  rewrite (run_adapter_result_of _ _ _ trafilatura_adapter) in Hp.
  rewrite (run_adapter_result_of _ _ _ readability_adapter) in Hs.
  rewrite (run_adapter_result_of _ _ _ beautifulsoup_adapter) in Hb.
  apply (f_equal (fun o => match o with Ret r => r | Raise _ => primary end))
    in Hp, Hs, Hb.
  rewrite Hp, Hs, Hb in *.
  exists primary; unfold five_steps, passes.
  rewrite Hsp, Hwp, Hss, Hsb; cbn.
  repeat split; auto.
  now apply output_method_trafilatura.
Qed.

(** C3, amended. For every HTML input the result of [extract_text] has
    either [success] true, and then [text] is present, [error] is absent
    and the text is non-empty unless the method is "beautifulsoup" (the
    beautifulsoup adapter may report an empty text; a readability result
    is returned only with more than 50 words), or [success] false, and
    then [error] is present and [text] absent. *)
Theorem text_or_error_by_adapter (html : string) :
  exists r, returned (orchestrate html) = Ret r
            /\ ((success r = true
                 /\ exists t, text r = Some t /\ error r = None
                              /\ (method r <> Some "beautifulsoup" -> t <> ""))
                \/ (success r = false
                    /\ text r = None /\ exists e, error r = Some e)).
Proof.
  eexists; rewrite extract_text_unfold; unfold returned; cbn [snd].
  split; [reflexivity|].
  apply selected_text; apply result_of_output.
Qed.

(** C4. For every HTML input the result of [extract_text] has [method]
    set if and only if [success] is true. *)
Theorem method_set_iff_success (html : string) :
  exists r, returned (orchestrate html) = Ret r
            /\ (method r <> None <-> success r = true).
Proof.
  chosen html a r Hr Hrun Hout.
  exists r; split; [exact Hr|].
  exact (output_method_iff_success a r Hout).
Qed.

(** C5. For every HTML input [extract_text] and each adapter return a
    well-formed result and raise nothing: a library that is not installed,
    and an exception raised inside an adapter's [try] block, each become a
    result with [success] false whose [error] starts with the name of a
    backend. *)
Theorem extract_text_never_raises (html : string) :
  (exists r, returned (orchestrate html) = Ret r /\ well_formed r)
  /\ (forall a, exists r, run a html = Ret r /\ well_formed r)
  /\ (get_trafilatura = None ->
      run trafilatura_adapter html = Ret (failure "trafilatura not installed"))
  /\ (get_beautifulsoup = None ->
      run beautifulsoup_adapter html = Ret (failure "beautifulsoup4 not installed"))
  /\ (get_readability = None ->
      run readability_adapter html = Ret (failure "readability-lxml not installed"))
  /\ (forall t e, get_trafilatura = Some t -> trafilatura_try t html = Raise e ->
      run trafilatura_adapter html = Ret (failure ("trafilatura error: " ++ e)))
  /\ (forall b e, get_beautifulsoup = Some b -> beautifulsoup_try b html = Raise e ->
      run beautifulsoup_adapter html = Ret (failure ("beautifulsoup error: " ++ e)))
  /\ (forall rd b e, get_readability = Some rd -> get_beautifulsoup = Some b ->
      readability_try rd b html = Raise e ->
      run readability_adapter html = Ret (failure ("readability error: " ++ e))).
Proof.
  split; [|split].
  { chosen html a r Hr Hrun Hout.
    exists r; split; [exact Hr | exact (output_well_formed a r Hout)]. }
  { intros a.
    destruct (run_adapter_output get_trafilatura get_beautifulsoup
                get_readability a html) as (r & Hr & Hout).
    exists r; split; [exact Hr | exact (output_well_formed a r Hout)]. }
  cbn [run_adapter].
  unfold extract_with_trafilatura, extract_with_beautifulsoup,
    extract_with_readability, try_except.
  repeat split.
  - now intros ->.
  - now intros ->.
  - now intros ->.
  - intros t e -> ->; reflexivity.
  - intros b e -> ->; reflexivity.
  - intros rd b e -> -> ->; reflexivity.
Qed.

(** The link filter as it is written. In every adapter result, and so in
    the result of [extract_text], that has [links], no link has an empty
    URL, a URL that starts with "#" or a URL that starts with
    "javascript:" in lower case; only the beautifulsoup adapter has
    [links]. When the page's anchors are "#", "javascript:void(0)",
    "/about" and "", the links of the beautifulsoup adapter are the one
    with URL "/about". *)
Theorem links_exclude_unusable (html : string) :
  (exists r, returned (orchestrate html) = Ret r
             /\ forall ls l, links r = Some ls -> In l ls -> ~ excluded_url (url l))
  /\ (forall a, exists r,
        run a html = Ret r
        /\ (forall ls l, links r = Some ls -> In l ls -> ~ excluded_url (url l))
        /\ (a <> beautifulsoup_adapter -> links r = None))
  /\ (forall bs4 soup0 soup,
        get_beautifulsoup = Some bs4 ->
        BeautifulSoup bs4 html = Ret soup0 ->
        decompose_all bs4 unwanted soup0 = Ret soup ->
        exists r,
          run beautifulsoup_adapter html = Ret r
          /\ links r = Some (firstn 500 (map link_of
                               (filter (fun a => keep_href (fst a))
                                       (find_all_a soup))))
          /\ (map fst (find_all_a soup)
              = ["#"; "javascript:void(0)"; "/about"; ""] ->
              option_map (map url) (links r) = Some ["/about"])).
Proof.
  split; [|split].
  - chosen html a r Hr Hrun Hout.
    exists r; split; [exact Hr|]. intros ls l; apply (output_links_clean a r); exact Hout.
  - intros a.
    destruct (run_adapter_output get_trafilatura get_beautifulsoup
                get_readability a html) as (r & Hr & Hout).
    exists r; repeat split; [exact Hr | | now apply output_links_absent].
    intros ls l; apply (output_links_clean a r); exact Hout.
  - intros bs4 soup0 soup Hb Hparse Hdec.
    cbn [run_adapter]; unfold extract_with_beautifulsoup, try_except.
    rewrite Hb; unfold beautifulsoup_try, bind; rewrite Hparse, Hdec.
    eexists; split; [reflexivity|]; cbn [links]; split; [reflexivity|].
    intros Hhrefs.
    destruct (find_all_a soup) as [|[u1 t1] [|[u2 t2] [|[u3 t3] [|[u4 t4] [|]]]]];
      try discriminate.
    cbn in Hhrefs; injection Hhrefs as -> -> -> ->.
    reflexivity.
Qed.

(** C7. In every adapter result, and so in the result of [extract_text],
    [headings] has at most 50 entries, [links] at most 500 and [images] at
    most 100, and every heading text, link text and image alt has at most
    200 characters. The beautifulsoup adapter keeps the first entries in
    the order of the document; with 120 heading elements its [headings]
    are the first 50 of them, 50 entries. *)
Theorem list_fields_within_caps (html : string) :
  (exists r, returned (orchestrate html) = Ret r /\ within_caps r)
  /\ (forall a, exists r, run a html = Ret r /\ within_caps r)
  /\ (forall bs4 soup0 soup,
        get_beautifulsoup = Some bs4 ->
        BeautifulSoup bs4 html = Ret soup0 ->
        decompose_all bs4 unwanted soup0 = Ret soup ->
        exists r,
          run beautifulsoup_adapter html = Ret r
          /\ headings r = Some (map heading_of (firstn 50 (find_all_h soup)))
          /\ links r = Some (map link_of
                               (firstn 500 (filter (fun a => keep_href (fst a))
                                                   (find_all_a soup))))
          /\ images r = Some (map image_of (firstn 100 (find_all_img soup)))
          /\ (length (find_all_h soup) = 120%nat ->
              exists hs, headings r = Some hs /\ length hs = 50%nat)).
Proof.
  split; [|split].
  - chosen html a r Hr Hrun Hout.
    exists r; split; [exact Hr | exact (output_within_caps a r Hout)].
  - intros a.
    destruct (run_adapter_output get_trafilatura get_beautifulsoup
                get_readability a html) as (r & Hr & Hout).
    exists r; split; [exact Hr | exact (output_within_caps a r Hout)].
  - intros bs4 soup0 soup Hb Hparse Hdec.
    cbn [run_adapter]; unfold extract_with_beautifulsoup, try_except.
    rewrite Hb; unfold beautifulsoup_try, bind; rewrite Hparse, Hdec.
    eexists; split; [reflexivity|]; cbn [headings links images].
    rewrite !firstn_map; repeat split.
    intros Hlen; eexists; split; [reflexivity|].
    rewrite length_map, firstn_length_le; [reflexivity | lia].
Qed.

(** C8. For every HTML input the result of [extract_text] has
    [word_count] equal to the number of pieces of the whitespace split of
    [text] when [text] is present, and equal to 0 when it is absent. *)
Theorem word_count_consistent (html : string) :
  exists r, returned (orchestrate html) = Ret r
            /\ word_count r =
                 match text r with
                 | Some t => Z.of_nat (length (PyStr.split t))
                 | None => 0%Z
                 end.
Proof.
  chosen html a r Hr Hrun Hout.
  exists r; split; [exact Hr|].
  exact (output_word_count a r Hout).
Qed.

(** C9. With [--output all], for every HTML input [main] prints a mapping
    whose "preferred" entry is [asdict] of exactly the result that
    [extract_text] returns for that input, and whose "trafilatura",
    "beautifulsoup" and "readability" entries are [asdict] of the results
    of the three adapters. *)
Theorem compare_all_preferred (html : string) :
  exists r primary secondary structural d,
    returned (orchestrate html) = Ret r
    /\ run trafilatura_adapter html = Ret primary
    /\ run readability_adapter html = Ret secondary
    /\ run beautifulsoup_adapter html = Ret structural
    /\ returned (main get_trafilatura get_beautifulsoup get_readability
                   output_all html) = Ret (print_json (VDict d))
    /\ map fst d = ["trafilatura"; "beautifulsoup"; "readability"; "preferred"]
    /\ dict_get "preferred" d = Some (asdict r)
    /\ dict_get "trafilatura" d = Some (asdict primary)
    /\ dict_get "readability" d = Some (asdict secondary)
    /\ dict_get "beautifulsoup" d = Some (asdict structural)
    /\ (forall r', dict_get "preferred" d = Some (asdict r') -> r' = r).
Proof.
  unfold main; rewrite extract_text_unfold.
  unfold returned, tbind, call, tret; cbn [snd].
  rewrite (run_adapter_result_of _ _ _ trafilatura_adapter).
  rewrite (run_adapter_result_of _ _ _ beautifulsoup_adapter).
  rewrite (run_adapter_result_of _ _ _ readability_adapter).
  cbn [snd].
  do 5 eexists; repeat split.
  cbn [dict_get String.eqb Ascii.eqb Bool.eqb]; cbn.
  intros r' H; apply Some_eq in H; symmetry; now apply asdict_inj.
Qed.

End Properties.

(** C2, as stated, fails: with only trafilatura installed and a
    thirty-word article, the hypotheses of the corner case hold and the
    final result has [method] set. *)
Lemma partial_success_method_is_set :
  ~ partial_success_unset (Some Samples.short_article) None None "<p>short</p>".
Proof.
  intros H.
  edestruct H as (r & _ & -> & _ & _ & Hm); try reflexivity.
  discriminate Hm.
Qed.

(** C2 at work: the same installation and page. *)
Lemma partial_success_keeps_method_witness :
  exists r, returned (extract_text (Some Samples.short_article) None None
                        "<p>short</p>") = Ret r
            /\ r = {| success := true; text := Some (Samples.words_text 30);
                      word_count := 30; metadata := None;
                      method := Some "trafilatura"; error := None;
                      title_extracted := None;
                      headings := None; links := None; images := None |}
            /\ success r = true /\ word_count r = 30%Z
            /\ method r = Some "trafilatura".
Proof.
  apply (partial_success_keeps_method (Some Samples.short_article) None None
           "<p>short</p>" _ (failure "readability-lxml not installed")
           (failure "beautifulsoup4 not installed"));
    reflexivity.
Defined.

(** C3, as stated, fails: on an empty page trafilatura finds nothing,
    readability rejects the document, and the beautifulsoup adapter
    succeeds with the empty text. *)
Lemma blank_page_empty_text :
  exists r, returned (extract_text (Some Samples.nothing_found)
                        (Some Samples.blank_parser)
                        (Some Samples.unparseable) "") = Ret r
            /\ success r = true /\ text r = Some ""
            /\ ~ text_or_error r.
Proof.
  eexists; split; [reflexivity|]; cbn.
  repeat split.
  intros [[_ (t & Ht & Hne)] | [Hs _]]; [|discriminate].
  injection Ht as <-; now apply Hne.
Qed.

(** C5 at work: readability rejects the empty page, and its adapter
    returns the failure record of that exception. *)
Lemma extract_text_never_raises_witness :
  Samples.blank_run readability_adapter
  = Ret (failure "readability error: Document is empty")
  /\ exists r, returned (extract_text (Some Samples.nothing_found)
                           (Some Samples.blank_parser)
                           (Some Samples.unparseable) "") = Ret r
               /\ well_formed r.
Proof.
  destruct (extract_text_never_raises (Some Samples.nothing_found)
              (Some Samples.blank_parser) (Some Samples.unparseable) "")
    as (Hr & _ & _ & _ & _ & _ & _ & Hraise).
  split; [|exact Hr].
  apply (Hraise Samples.unparseable Samples.blank_parser "Document is empty");
    reflexivity.
Defined.

(** The link filter at work: the four anchors of the example. *)
Lemma links_exclude_unusable_witness :
  exists r, run_adapter None (Some Samples.anchors_parser) None
              beautifulsoup_adapter "<a href='#'>Top</a>" = Ret r
            /\ option_map (map url) (links r) = Some ["/about"].
Proof.
  destruct (links_exclude_unusable None (Some Samples.anchors_parser) None
              "<a href='#'>Top</a>") as (_ & _ & H).
  destruct (H Samples.anchors_parser Samples.four_anchors Samples.four_anchors
              eq_refl eq_refl eq_refl) as (r & Hr & _ & Hex).
  exists r; split; [exact Hr | apply Hex; reflexivity].
Defined.

(** C7 at work: a page with 120 headings. *)
Lemma list_fields_within_caps_witness :
  length (find_all_h Samples.many_headings) = 120%nat
  /\ exists r hs, run_adapter None (Some Samples.headings_parser) None
                    beautifulsoup_adapter "<h2>Part Aa</h2>" = Ret r
                  /\ headings r = Some hs /\ length hs = 50%nat.
Proof.
  split; [reflexivity|].
  destruct (list_fields_within_caps None (Some Samples.headings_parser) None
              "<h2>Part Aa</h2>") as (_ & _ & H).
  destruct (H Samples.headings_parser Samples.many_headings Samples.many_headings
              eq_refl eq_refl eq_refl) as (r & Hr & _ & _ & _ & Hex).
  destruct (Hex eq_refl) as (hs & Hhs & Hlen).
  exists r, hs; auto.
Defined.

(** C10, as stated, fails: when neither library is installed the
    readability adapter reports readability-lxml, which it looks for
    first. *)
Lemma readability_reports_itself_first :
  ~ readability_reports_bs4 None "<p>text</p>"
  /\ extract_with_readability None None "<p>text</p>"
     = Ret (failure "readability-lxml not installed").
Proof.
  split; [|reflexivity].
  unfold readability_reports_bs4; cbv; discriminate.
Qed.

(** C10, amended. For every HTML input, when beautifulsoup4 is not
    installed the readability adapter returns a failure, whatever
    readability-lxml would do: with the message "beautifulsoup4 not
    installed" when readability-lxml is installed, and "readability-lxml
    not installed" when it is not either. *)
Theorem readability_needs_bs4 (gr : option ReadabilityLib) (html : string) :
  exists r, extract_with_readability None gr html = Ret r
            /\ success r = false
            /\ error r = Some (match gr with
                               | Some _ => "beautifulsoup4 not installed"
                               | None => "readability-lxml not installed"
                               end).
Proof.
  unfold extract_with_readability.
  destruct gr; eexists; repeat split.
Qed.

(** C6, against the code. A URL with the javascript scheme is not always
    excluded: the filter compares the prefix "javascript:" with regard to
    case, so that on a page whose anchors are "JavaScript:void(0)" and
    "/about" the links of the beautifulsoup adapter, which [extract_text]
    returns, hold both. *)
Theorem javascript_scheme_link_kept :
  javascript_scheme "JavaScript:void(0)" = true
  /\ keep_href "JavaScript:void(0)" = true
  /\ exists r ls,
       returned (extract_text None (Some MoreSamples.capitals_parser) None
                   "<a href='JavaScript:void(0)'>Menu</a><a href='/about'>About</a>")
       = Ret r
       /\ method r = Some "beautifulsoup"
       /\ links r = Some ls
       /\ map url ls = ["JavaScript:void(0)"; "/about"]
       /\ Exists (fun l => javascript_scheme (url l) = true) ls.
Proof.
  split; [reflexivity|]; split; [reflexivity|].
  do 2 eexists; split; [reflexivity|]; cbn.
  repeat split; constructor; reflexivity.
Qed.

(** * Further properties of the extraction service *)

Local Open Scope string_scope.

(** ** Whitespace normalisation: [re.sub], [strip] and [split] together *)

Lemma append_empty_r (s : string) : s ++ "" = s.
Proof.
  induction s as [|c s IH]; simpl; [reflexivity | now rewrite IH].
Qed.

Lemma append_snoc (w : string) (c : ascii) (r : string) :
  (w ++ String c "") ++ r = w ++ String c r.
Proof.
  induction w as [|a w IH]; simpl; [reflexivity | now rewrite IH].
Qed.

Lemma truthy_snoc (w : string) (c : ascii) :
  PyStr.truthy (w ++ String c "") = true.
Proof. now destruct w. Qed.

Lemma no_space_snoc (w : string) (c : ascii) :
  no_space w = true -> PyStr.isspace c = false ->
  no_space (w ++ String c "") = true.
Proof.
  intros Hw Hc; induction w as [|a w IH]; simpl in *.
  - now rewrite Hc.
  - apply andb_prop in Hw as [-> Hw]; auto.
Qed.

Lemma rstrip_no_space_app (w r : string) :
  no_space w = true -> PyStr.rstrip (w ++ r) = w ++ PyStr.rstrip r.
Proof.
  induction w as [|a w IH]; simpl; [reflexivity|].
  intros H; apply andb_prop in H as [Ha Hw].
  apply negb_true_iff in Ha; rewrite Ha; simpl.
  now rewrite IH.
Qed.

Lemma split_acc_not_nil (s w : string) :
  PyStr.truthy w = true -> PyStr.split_acc w s <> [].
Proof.
  revert w; induction s as [|c s IH]; intros w Hw; simpl.
  - rewrite Hw; discriminate.
  - destruct (PyStr.isspace c).
    + rewrite Hw; discriminate.
    + apply IH, truthy_snoc.
Qed.

(** The two facts that carry the induction: what follows a word under way,
    and what follows a blank already written. *)
Lemma normalise_words (s : string) :
  (forall w, no_space w = true -> PyStr.truthy w = true ->
     PyStr.rstrip (w ++ PyStr.sub_ws false s)
     = str_join " " (PyStr.split_acc w s))
  /\ PyStr.rstrip (String " " (PyStr.sub_ws true s))
     = match PyStr.split_acc "" s with
       | [] => ""
       | x :: l => String " " (str_join " " (x :: l))
       end.
Proof.
  induction s as [|c s [IH1 IH2]].
  - split.
    + intros w Hw Ht; cbn [PyStr.sub_ws PyStr.split_acc].
      rewrite Ht, rstrip_no_space_app by assumption.
      cbn; now rewrite append_empty_r.
    + reflexivity.
  - cbn [PyStr.sub_ws PyStr.split_acc].
    destruct (PyStr.isspace c) eqn:Hc.
    + split.
      * intros w Hw Ht; rewrite Ht, rstrip_no_space_app, IH2 by assumption.
        destruct (PyStr.split_acc "" s) as [|x l].
        -- cbn; now rewrite append_empty_r.
        -- reflexivity.
      * exact IH2.
    + split.
      * intros w Hw Ht; rewrite <- append_snoc.
        apply IH1; [now apply no_space_snoc | apply truthy_snoc].
      * cbn [append].
        assert (Hr : PyStr.rstrip (String c (PyStr.sub_ws false s))
                     = str_join " " (PyStr.split_acc (String c "") s)).
        { apply (IH1 (String c "")); cbn; [now rewrite Hc | reflexivity]. }
        pose proof (split_acc_not_nil s (String c "") eq_refl) as Hne.
        destruct (PyStr.split_acc (String c "") s) as [|x l]; [congruence|].
        rewrite <- Hr.
        change (PyStr.rstrip (String " " (String c (PyStr.sub_ws false s))))
          with (if PyStr.isspace " "
                   && negb (PyStr.truthy
                              (PyStr.rstrip (String c (PyStr.sub_ws false s))))
                then ""
                else String " " (PyStr.rstrip (String c (PyStr.sub_ws false s)))).
        cbn [PyStr.rstrip]; rewrite Hc; reflexivity.
Qed.

(** [re.sub(r'\s+', ' ', s).strip()] is [' '.join(s.split())]. *)
Lemma strip_sub_ws (s : string) (b : bool) :
  PyStr.strip (PyStr.sub_ws b s) = str_join " " (PyStr.split s).
Proof.
  unfold PyStr.strip, PyStr.split.
  revert b; induction s as [|c s IH]; intros b; [reflexivity|].
  cbn [PyStr.sub_ws PyStr.split_acc].
  destruct (PyStr.isspace c) eqn:Hc.
  - destruct b; [apply IH|].
    cbn [PyStr.lstrip]; apply IH.
  - cbn [append PyStr.lstrip PyStr.truthy]; rewrite Hc.
    apply (proj1 (normalise_words s) (String c "")); cbn;
      [now rewrite Hc | reflexivity].
Qed.

Lemma split_acc_words (s w : string) :
  no_space w = true ->
  Forall (fun x => is_word x = true) (PyStr.split_acc w s).
Proof.
  revert w; induction s as [|c s IH]; intros w Hw; simpl.
  - destruct (PyStr.truthy w) eqn:Ht; constructor; [|constructor].
    unfold is_word; now rewrite Ht, Hw.
  - destruct (PyStr.isspace c) eqn:Hc.
    + destruct (PyStr.truthy w) eqn:Ht; [constructor|]; try now apply IH.
      unfold is_word; now rewrite Ht, Hw.
    + apply IH; now apply no_space_snoc.
Qed.

Lemma split_acc_app_word (x w r : string) :
  no_space x = true ->
  PyStr.split_acc w (x ++ r) = PyStr.split_acc (w ++ x) r.
Proof.
  revert w; induction x as [|c x IH]; intros w Hx; simpl.
  - now rewrite append_empty_r.
  - simpl in Hx; apply andb_prop in Hx as [Hc Hx].
    apply negb_true_iff in Hc; rewrite Hc.
    rewrite IH by assumption; now rewrite append_snoc.
Qed.

(** Joining words with one blank and splitting again gives the words. *)
Lemma split_join_words (l : list string) :
  Forall (fun x => is_word x = true) l ->
  PyStr.split (str_join " " l) = l.
Proof.
  unfold PyStr.split.
  induction 1 as [|x l Hx Hl IH]; [reflexivity|].
  apply andb_prop in Hx as [Ht Hn].
  cbn [str_join]; destruct l as [|y l].
  - rewrite <- (append_empty_r x) at 1.
    rewrite split_acc_app_word by assumption.
    cbn; now rewrite Ht.
  - rewrite split_acc_app_word by assumption.
    cbn [append PyStr.split_acc]; cbn [PyStr.isspace]; simpl PyStr.isspace.
    rewrite Ht; now rewrite IH.
Qed.

(** A normalised text is the join of its own words. *)
Lemma normalised_fixpoint (raw : string) (b : bool) :
  let t := PyStr.strip (PyStr.sub_ws b raw) in
  PyStr.split t = PyStr.split raw /\ t = str_join " " (PyStr.split t).
Proof.
  cbv zeta; rewrite strip_sub_ws.
  assert (H : PyStr.split (str_join " " (PyStr.split raw)) = PyStr.split raw).
  { apply split_join_words, split_acc_words; reflexivity. }
  now rewrite H.
Qed.

(** ** What the adapters put in a result *)

Lemma output_method_backend a r :
  adapter_output a r -> success r = true -> method r = Some (backend_name a).
Proof.
  destruct 1; cbn; intros Hs; try discriminate; reflexivity.
Qed.

Lemma output_method_is_backend a r m :
  adapter_output a r -> method r = Some m -> m = backend_name a.
Proof.
  destruct 1; cbn; intros Hm; try discriminate; congruence.
Qed.

Lemma output_adapter_of_method a r :
  adapter_output a r -> method r = Some (backend_name beautifulsoup_adapter) ->
  a = beautifulsoup_adapter.
Proof.
  destruct 1; cbn; intros Hm; try discriminate; reflexivity.
Qed.

Lemma output_lists_iff a r :
  adapter_output a r ->
  (headings r <> None <-> method r = Some "beautifulsoup")
  /\ (links r <> None <-> method r = Some "beautifulsoup")
  /\ (images r <> None <-> method r = Some "beautifulsoup")
  /\ (metadata r <> None -> method r = Some "trafilatura")
  /\ (method r = None \/ method r = Some "trafilatura"
      \/ method r = Some "readability" \/ method r = Some "beautifulsoup").
Proof.
  destruct 1; cbn [headings links images metadata method failure];
    repeat split; intros; try congruence; auto.
Qed.

Lemma output_heading_levels a r hs h :
  adapter_output a r -> headings r = Some hs -> In h hs ->
  (1 <= level h <= 6)%Z.
Proof.
  destruct 1; cbn [headings failure]; intros Heq; try discriminate.
  apply Some_eq in Heq; subst hs.
  intros Hh; apply In_firstn, in_map_iff in Hh as [x [<- _]].
  apply heading_level_range.
Qed.

Lemma alt_of_not_empty (a : option string) (s : string) :
  alt_of a = Some s -> s <> "".
Proof.
  destruct a as [[|c t]|]; cbn; try discriminate.
  intros H; apply Some_eq in H; subst s; discriminate.
Qed.

Lemma output_alt_not_empty a r ims i s :
  adapter_output a r -> images r = Some ims -> In i ims ->
  alt i = Some s -> s <> "".
Proof.
  destruct 1; cbn [images failure]; intros Heq; try discriminate.
  apply Some_eq in Heq; subst ims.
  intros Hi; apply In_firstn, in_map_iff in Hi as [x [<- _]].
  apply alt_of_not_empty.
Qed.

Lemma list_or_None_not_empty (x : option (list string)) :
  list_or_None x <> Some [].
Proof.
  destruct x as [[|a l]|]; cbn; discriminate.
Qed.

Lemma trafilatura_try_metadata (t : Trafilatura) (html : string) (r : ExtractionResult) :
  trafilatura_try t html = Ret r -> metadata_sound r.
Proof.
  unfold trafilatura_try, bind, metadata_sound.
  destruct (extract t html) as [[txt|]|]; try discriminate.
  2: { intros H; injection H as <-; cbn; congruence. }
  destruct (PyStr.truthy txt); cbn [negb].
  2: { intros H; injection H as <-; cbn; congruence. }
  destruct (extract_metadata t html) as [[m|]|]; try discriminate;
    intros H; injection H as <-; cbn.
  - repeat split; apply list_or_None_not_empty.
  - reflexivity.
Qed.

Lemma normal_text_facts (raw : string) (b : bool) :
  let t := PyStr.strip (PyStr.sub_ws b raw) in
  t = str_join " " (PyStr.split t)
  /\ PyStr.split t = PyStr.split raw
  /\ (Z.of_nat (length (PyStr.split t)) = 0%Z <-> t = "").
Proof.
  destruct (normalised_fixpoint raw b) as [Hs Ht]; cbv zeta in *.
  repeat split; auto.
  - intros H; rewrite Ht.
    destruct (PyStr.split (PyStr.strip (PyStr.sub_ws b raw))); [reflexivity|].
    cbn in H; lia.
  - intros ->; reflexivity.
Qed.

Lemma beautifulsoup_try_normal (b : BeautifulSoupLib) (html : string) r :
  beautifulsoup_try b html = Ret r -> normal_text r.
Proof.
  unfold beautifulsoup_try, bind, normal_text.
  destruct (BeautifulSoup b html) as [soup0|]; try discriminate.
  destruct (decompose_all b unwanted soup0) as [soup|]; try discriminate.
  intros H; apply (f_equal (fun o => match o with Ret x => x | Raise _ => r end)) in H.
  subst r; cbn [text word_count].
  eexists; split; [reflexivity|].
  destruct (normal_text_facts
              (match find_body soup with
               | Some body =>
                   match or_else (or_else (find_main body) (find_article body))
                                 (find_content body) with
                   | Some t => t
                   | None => body_get_text body
                   end
               | None => get_text soup
               end) false) as (H1 & _ & H3).
  split; assumption.
Qed.

Lemma readability_try_normal (rd : ReadabilityLib) (b : BeautifulSoupLib)
  (html : string) r :
  readability_try rd b html = Ret r -> normal_text r.
Proof.
  unfold readability_try, bind, normal_text.
  destruct (Document rd html) as [doc|]; try discriminate.
  destruct (summary doc) as [content|]; try discriminate.
  destruct (title doc) as [ti|]; try discriminate.
  destruct (BeautifulSoup b content) as [soup|]; try discriminate.
  intros H; apply (f_equal (fun o => match o with Ret x => x | Raise _ => r end)) in H.
  subst r; cbn [text word_count].
  eexists; split; [reflexivity|].
  destruct (normal_text_facts (get_text soup) false) as (H1 & _ & H3).
  split; assumption.
Qed.

Section AdapterContents.

Variable get_trafilatura : option Trafilatura.
Variable get_beautifulsoup : option BeautifulSoupLib.
Variable get_readability : option ReadabilityLib.

Local Abbreviation run :=
  (run_adapter get_trafilatura get_beautifulsoup get_readability).

Lemma failure_metadata_sound e : metadata_sound (failure e).
Proof. unfold metadata_sound; cbn; congruence. Qed.

Lemma run_metadata_sound a html r : run a html = Ret r -> metadata_sound r.
Proof.
  destruct a; cbn [run_adapter].
  - unfold extract_with_trafilatura, try_except.
    destruct get_trafilatura as [t|].
    + pose proof (trafilatura_try_metadata t html) as Ht.
      destruct (trafilatura_try t html) as [x|e]; intros H; injection H as <-.
      * now apply Ht.
      * apply failure_metadata_sound.
    + intros H; injection H as <-; apply failure_metadata_sound.
  - pose proof (readability_output get_beautifulsoup get_readability html)
      as (x & Hx & Hout).
    intros H; rewrite Hx in H; injection H as <-.
    inversion Hout; subst; unfold metadata_sound;
      cbn [metadata method title_extracted failure]; congruence.
  - pose proof (beautifulsoup_output get_beautifulsoup html) as (x & Hx & Hout).
    intros H; rewrite Hx in H; injection H as <-.
    inversion Hout; subst; unfold metadata_sound;
      cbn [metadata method title_extracted failure]; congruence.
Qed.

Lemma run_normal_text a html r :
  run a html = Ret r -> a <> trafilatura_adapter -> success r = true ->
  normal_text r.
Proof.
  destruct a; cbn [run_adapter]; [congruence| |];
    unfold extract_with_readability, extract_with_beautifulsoup, try_except;
    intros H _ Hs.
  - destruct get_readability as [rd|];
      [|injection H as <-; discriminate].
    destruct get_beautifulsoup as [b|];
      [|injection H as <-; discriminate].
    pose proof (readability_try_normal rd b html) as Hn.
    destruct (readability_try rd b html) as [x|e].
    + injection H as <-; now apply Hn.
    + injection H as <-; discriminate.
  - destruct get_beautifulsoup as [b|];
      [|injection H as <-; discriminate].
    pose proof (beautifulsoup_try_normal b html) as Hn.
    destruct (beautifulsoup_try b html) as [x|e].
    + injection H as <-; now apply Hn.
    + injection H as <-; discriminate.
Qed.

End AdapterContents.

(** ** The orchestrator and [main], further *)

Lemma dict_set_metadata_same r m :
  metadata r = Some m ->
  dict_set "metadata" (asdict_metadata m) (asdict_fields r) = asdict_fields r.
Proof.
  intros H; unfold asdict_fields; rewrite H; reflexivity.
Qed.

Lemma five_steps_success p s b :
  success (five_steps p s b) = success p || passes s || success b.
Proof.
  unfold five_steps, passes.
  destruct (success p) eqn:Hp, (word_count p >? 50)%Z; cbn;
    rewrite ?Hp; try reflexivity;
    destruct (success s) eqn:Hs, (word_count s >? 50)%Z; cbn;
    rewrite ?Hs, ?Hp; try reflexivity;
    destruct (success b) eqn:Hb; cbn; rewrite ?Hb, ?Hp; reflexivity.
Qed.

Lemma kept_urls (anchors : list (string * string)) :
  map (fun x => url (link_of x))
      (filter (fun a : string * string => keep_href (fst a)) anchors)
  = filter keep_href (map fst anchors).
Proof.
  induction anchors as [|[u t] l IH]; [reflexivity|].
  cbn [filter map fst]; destruct (keep_href u); cbn [map]; rewrite IH;
    reflexivity.
Qed.

Section MoreProperties.

Variable get_trafilatura : option Trafilatura.
Variable get_beautifulsoup : option BeautifulSoupLib.
Variable get_readability : option ReadabilityLib.

Local Abbreviation run :=
  (run_adapter get_trafilatura get_beautifulsoup get_readability).
Local Abbreviation value_of :=
  (result_of get_trafilatura get_beautifulsoup get_readability).
Local Abbreviation orchestrate :=
  (extract_text get_trafilatura get_beautifulsoup get_readability).
Local Abbreviation main_ :=
  (main get_trafilatura get_beautifulsoup get_readability).

Ltac selected html a r Hr Hrun Hout :=
  destruct (extract_text_output get_trafilatura get_beautifulsoup
              get_readability html) as (a & r & Hr & Hrun & Hout).

(** X1. The text of a successful readability or beautifulsoup result, and
    so of a result of [extract_text] with one of these methods, is
    normalised: it is the join with single blanks of its own words (no
    leading, trailing or repeated whitespace), and its word count is 0
    exactly when it is empty. *)
Theorem text_is_normalised (html : string) :
  (forall a, a <> trafilatura_adapter ->
     exists r, run a html = Ret r /\ (success r = true -> normal_text r))
  /\ exists r, returned (orchestrate html) = Ret r
               /\ (method r = Some "readability"
                   \/ method r = Some "beautifulsoup" -> normal_text r).
Proof.
  split.
  - intros a Ha.
    destruct (run_adapter_output get_trafilatura get_beautifulsoup
                get_readability a html) as (r & Hr & _).
    exists r; split; [exact Hr|]; intros Hs.
    now apply (run_normal_text get_trafilatura get_beautifulsoup get_readability a html).
  - selected html a r Hr Hrun Hout.
    exists r; split; [exact Hr|]; intros Hm.
    assert (Hs : success r = true).
    { apply (output_method_iff_success a r Hout).
      destruct Hm as [-> | ->]; discriminate. }
    apply (run_normal_text get_trafilatura get_beautifulsoup get_readability a html); auto.
    intros ->.
    rewrite (output_method_trafilatura r Hout Hs) in Hm.
    destruct Hm; discriminate.
Qed.

(** X2. [extract_text] reports success exactly when trafilatura
    succeeded, or readability succeeded with more than 50 words, or
    beautifulsoup succeeded. *)
Theorem success_characterised (html : string) :
  exists primary secondary structural r,
    run trafilatura_adapter html = Ret primary
    /\ run readability_adapter html = Ret secondary
    /\ run beautifulsoup_adapter html = Ret structural
    /\ returned (orchestrate html) = Ret r
    /\ success r
       = success primary
         || (success secondary && (50 <? word_count secondary)%Z)
         || success structural.
Proof.
  exists (value_of trafilatura_adapter html),
         (value_of readability_adapter html),
         (value_of beautifulsoup_adapter html).
  eexists; rewrite extract_text_unfold; unfold returned; cbn [snd].
  repeat split; try apply run_adapter_result_of.
  now rewrite five_steps_success, gate_agrees.
Qed.

(** X3. A readability result is returned only above the gate: whenever
    the result of [extract_text] has method "readability", its word count
    exceeds 50. *)
Theorem readability_only_above_gate (html : string) :
  exists r, returned (orchestrate html) = Ret r
            /\ (method r = Some "readability" -> (50 < word_count r)%Z).
Proof.
  eexists; rewrite extract_text_unfold; unfold returned; cbn [snd].
  split; [reflexivity|].
  pose proof (result_of_output get_trafilatura get_beautifulsoup
                get_readability trafilatura_adapter html) as Hp.
  pose proof (result_of_output get_trafilatura get_beautifulsoup
                get_readability beautifulsoup_adapter html) as Hb.
  unfold five_steps.
  destruct (passes (value_of trafilatura_adapter html)).
  { intros Hm; apply (output_method_is_backend _ _ _ Hp) in Hm; discriminate. }
  destruct (passes (value_of readability_adapter html)) eqn:Hs.
  { intros _; unfold passes in Hs; apply andb_prop in Hs as [_ Hs].
    now apply Z.gtb_lt in Hs. }
  destruct (success (value_of beautifulsoup_adapter html)).
  { intros Hm; apply (output_method_is_backend _ _ _ Hb) in Hm; discriminate. }
  assert (Hm' : method (value_of trafilatura_adapter html) = Some "readability"
                -> (50 < word_count (value_of trafilatura_adapter html))%Z).
  { intros Hm; apply (output_method_is_backend _ _ _ Hp) in Hm; discriminate. }
  destruct (success (value_of trafilatura_adapter html)); exact Hm'.
Qed.

(** X4. A readability success at or under the gate is given up: when
    trafilatura and beautifulsoup both fail and readability succeeds with
    at most 50 words, [extract_text] returns trafilatura's failure. *)
Theorem partial_readability_dropped (html : string)
  (primary secondary structural : ExtractionResult) :
  run trafilatura_adapter html = Ret primary ->
  run readability_adapter html = Ret secondary ->
  run beautifulsoup_adapter html = Ret structural ->
  success primary = false -> success structural = false ->
  success secondary = true -> (word_count secondary <= 50)%Z ->
  returned (orchestrate html) = Ret primary
  /\ exists e, primary = failure e /\ error_of trafilatura_adapter e.
Proof.
  intros Hp Hs Hb Hsp Hsb Hss Hws.
  pose proof (result_of_output get_trafilatura get_beautifulsoup
                get_readability trafilatura_adapter html) as Hout.
  rewrite extract_text_unfold; unfold returned; cbn [snd].
  rewrite (run_adapter_result_of _ _ _ trafilatura_adapter) in Hp.
  rewrite (run_adapter_result_of _ _ _ readability_adapter) in Hs.
  rewrite (run_adapter_result_of _ _ _ beautifulsoup_adapter) in Hb.
  apply (f_equal (fun o => match o with Ret r => r | Raise _ => primary end))
    in Hp, Hs, Hb.
  rewrite Hp, Hs, Hb in *.
  split.
  - unfold five_steps, passes; rewrite Hsp, Hss, Hsb; cbn.
    destruct (word_count secondary >? 50)%Z eqn:Hgt; [|reflexivity].
    apply Z.gtb_lt in Hgt; lia.
  - now apply output_failure.
Qed.

(** X5. In a result of [extract_text], [headings], [links] and [images]
    are present exactly when the method is "beautifulsoup", [metadata] is
    present only when the method is "trafilatura", and the method, when
    set, is one of "trafilatura", "readability" and "beautifulsoup". *)
Theorem fields_by_method (html : string) :
  exists r, returned (orchestrate html) = Ret r
            /\ (headings r <> None <-> method r = Some "beautifulsoup")
            /\ (links r <> None <-> method r = Some "beautifulsoup")
            /\ (images r <> None <-> method r = Some "beautifulsoup")
            /\ (metadata r <> None -> method r = Some "trafilatura")
            /\ (method r = None \/ method r = Some "trafilatura"
                \/ method r = Some "readability"
                \/ method r = Some "beautifulsoup").
Proof.
  selected html a r Hr Hrun Hout.
  exists r; split; [exact Hr | exact (output_lists_iff a r Hout)].
Qed.

(** X6. Every heading of every adapter result, and of the result of
    [extract_text], has a level between 1 and 6. *)
Theorem heading_levels (html : string) :
  (forall a, exists r, run a html = Ret r
       /\ forall hs h, headings r = Some hs -> In h hs -> (1 <= level h <= 6)%Z)
  /\ exists r, returned (orchestrate html) = Ret r
       /\ forall hs h, headings r = Some hs -> In h hs -> (1 <= level h <= 6)%Z.
Proof.
  split.
  - intros a.
    destruct (run_adapter_output get_trafilatura get_beautifulsoup
                get_readability a html) as (r & Hr & Hout).
    exists r; split; [exact Hr|].
    intros hs h; now apply (output_heading_levels a r).
  - selected html a r Hr Hrun Hout.
    exists r; split; [exact Hr|].
    intros hs h; now apply (output_heading_levels a r).
Qed.

(** X7. The [alt] of an image of a result is absent or non-empty: an
    empty [alt] attribute is reported as absent. *)
Theorem image_alt_absent_or_not_empty (html : string) :
  (forall a, exists r, run a html = Ret r
       /\ forall ims i s, images r = Some ims -> In i ims ->
                          alt i = Some s -> s <> "")
  /\ exists r, returned (orchestrate html) = Ret r
       /\ forall ims i s, images r = Some ims -> In i ims ->
                          alt i = Some s -> s <> "".
Proof.
  split.
  - intros a.
    destruct (run_adapter_output get_trafilatura get_beautifulsoup
                get_readability a html) as (r & Hr & Hout).
    exists r; split; [exact Hr|].
    intros ims i s; now apply (output_alt_not_empty a r).
  - selected html a r Hr Hrun Hout.
    exists r; split; [exact Hr|].
    intros ims i s; now apply (output_alt_not_empty a r).
Qed.

(** X8. When the result of [extract_text] carries metadata, its
    [categories] and [tags] are absent rather than empty and
    [title_extracted] is the metadata's title; a trafilatura result
    without metadata has no extracted title. *)
Theorem metadata_lists_and_title (html : string) :
  exists r, returned (orchestrate html) = Ret r /\ metadata_sound r.
Proof.
  selected html a r Hr Hrun Hout.
  exists r; split; [exact Hr|].
  now apply (run_metadata_sound get_trafilatura get_beautifulsoup get_readability a html).
Qed.

(** X9. When the parser works, the URLs of the beautifulsoup adapter's
    links are the first 500 usable hrefs of the page in order, so that
    under the cap every anchor whose href is not excluded is reported. *)
Theorem usable_links_all_kept (html : string)
  (bs4 : BeautifulSoupLib) (soup0 soup : Soup) :
  get_beautifulsoup = Some bs4 ->
  BeautifulSoup bs4 html = Ret soup0 ->
  decompose_all bs4 unwanted soup0 = Ret soup ->
  exists r ls,
    run beautifulsoup_adapter html = Ret r
    /\ links r = Some ls
    /\ map url ls = firstn 500 (filter keep_href (map fst (find_all_a soup)))
    /\ ((length (filter keep_href (map fst (find_all_a soup))) <= 500)%nat ->
        forall u t, In (u, t) (find_all_a soup) -> ~ excluded_url u ->
                    In u (map url ls)).
Proof.
  intros Hb Hparse Hdec.
  cbn [run_adapter]; unfold extract_with_beautifulsoup, try_except.
  rewrite Hb; unfold beautifulsoup_try, bind; rewrite Hparse, Hdec.
  do 2 eexists; split; [reflexivity|]; cbn [links]; split; [reflexivity|].
  assert (Hurls : forall n anchors,
             map url (firstn n (map link_of
                        (filter (fun a : string * string => keep_href (fst a))
                                anchors)))
             = firstn n (filter keep_href (map fst anchors))).
  { intros n anchors; rewrite <- firstn_map, map_map; f_equal.
    apply kept_urls. }
  rewrite Hurls; split; [reflexivity|].
  intros Hcap u t Hin Hu.
  rewrite firstn_all2 by assumption.
  apply filter_In; split; [|now apply keep_href_complete].
  apply in_map_iff; exists (u, t); auto.
Qed.

(** X10. When the parser works on the page, neither the beautifulsoup
    adapter nor [extract_text] fails, whatever the page holds. *)
Theorem parser_at_work_means_success (html : string)
  (bs4 : BeautifulSoupLib) (soup0 soup : Soup) :
  get_beautifulsoup = Some bs4 ->
  BeautifulSoup bs4 html = Ret soup0 ->
  decompose_all bs4 unwanted soup0 = Ret soup ->
  (exists r, run beautifulsoup_adapter html = Ret r /\ success r = true)
  /\ exists r, returned (orchestrate html) = Ret r /\ success r = true.
Proof.
  intros Hb Hparse Hdec.
  assert (H : exists r, run beautifulsoup_adapter html = Ret r /\ success r = true).
  { cbn [run_adapter]; unfold extract_with_beautifulsoup, try_except.
    rewrite Hb; unfold beautifulsoup_try, bind; rewrite Hparse, Hdec.
    eexists; split; reflexivity. }
  split; [exact H|].
  destruct H as (r & Hr & Hs).
  rewrite (run_adapter_result_of _ _ _ beautifulsoup_adapter) in Hr.
  apply (f_equal (fun o => match o with Ret x => x | Raise _ => r end)) in Hr.
  eexists; rewrite extract_text_unfold; unfold returned; cbn [snd].
  split; [reflexivity|].
  rewrite five_steps_success, Hr, Hs.
  now rewrite orb_true_r.
Qed.

(** X11. With [--output text], [main] prints the text of the result
    when [extract_text] succeeded, and otherwise leaves with status 1
    after writing "Error: " and the error of the trafilatura adapter. *)
Theorem main_text_mode (html : string) :
  exists r, returned (orchestrate html) = Ret r
    /\ (success r = true ->
        exists t, text r = Some t
                  /\ returned (main_ output_text html) = Ret (print_text t))
    /\ (success r = false ->
        exists e, run trafilatura_adapter html = Ret (failure e)
                  /\ returned (main_ output_text html)
                     = Ret (exit_1 ("Error: " ++ e))).
Proof.
  selected html a r Hr Hrun Hout.
  exists r; split; [exact Hr|].
  assert (Hmain : returned (main_ output_text html)
                  = Ret (if success r
                         then print_text (match text r with
                                          | Some t => t | None => "None" end)
                         else exit_1 ("Error: " ++ match error r with
                                                   | Some e => e
                                                   | None => "None" end))).
  { unfold main; revert Hr.
    destruct (orchestrate html) as [tr [x|e]]; unfold returned, tbind, tret;
      cbn [snd]; intros Hx; [|discriminate].
    injection Hx as ->; now destruct (success r). }
  split; intros Hs; rewrite Hmain, Hs.
  - destruct (output_success a r Hout Hs) as (t & Ht & _).
    exists t; now rewrite Ht.
  - assert (Hp : r = value_of trafilatura_adapter html).
    { revert Hr; rewrite extract_text_unfold; unfold returned; cbn [snd].
      intros Hr; injection Hr as Hr; rewrite <- Hr in Hs |- *.
      now apply five_steps_failure. }
    pose proof (result_of_output get_trafilatura get_beautifulsoup
                  get_readability trafilatura_adapter html) as Hp_out.
    rewrite <- Hp in Hp_out.
    destruct (output_failure _ _ Hp_out Hs) as (e & He & _).
    exists e; rewrite (run_adapter_result_of _ _ _ trafilatura_adapter).
    rewrite <- Hp, He; split; reflexivity.
Qed.

(** X12. With [--output json], the default, [main] prints exactly
    [asdict] of the result of [extract_text]: assigning the metadata again
    changes nothing, and no adapter is called again. *)
Theorem main_json_mode (html : string) :
  exists r, returned (orchestrate html) = Ret r
            /\ returned (main_ output_json html) = Ret (print_json (asdict r))
            /\ calls (main_ output_json html) = calls (orchestrate html).
Proof.
  eexists; unfold main; rewrite extract_text_unfold.
  unfold returned, calls, tbind, tret; cbn [fst snd].
  split; [reflexivity|]; split; [|apply app_nil_r].
  unfold asdict.
  destruct (metadata _) as [m|] eqn:Hm; [|reflexivity].
  now rewrite dict_set_metadata_same.
Qed.

(** X13. With [--output all], [main] calls the three adapters again
    after [extract_text]: trafilatura runs twice and the other two once
    or twice. *)
Theorem main_all_mode_calls (html : string) :
  calls (main_ output_all html)
  = (calls (orchestrate html)
     ++ [trafilatura_adapter; beautifulsoup_adapter; readability_adapter])%list
  /\ count_occ adapter_eq_dec (calls (main_ output_all html))
       trafilatura_adapter = 2%nat
  /\ forall a, (1 <= count_occ adapter_eq_dec (calls (main_ output_all html)) a
                <= 2)%nat.
Proof.
  unfold main; rewrite extract_text_unfold.
  unfold calls, tbind, call, tret; cbn [fst snd].
  rewrite (run_adapter_result_of _ _ _ trafilatura_adapter).
  rewrite (run_adapter_result_of _ _ _ beautifulsoup_adapter).
  rewrite (run_adapter_result_of _ _ _ readability_adapter).
  cbn [fst snd app]; unfold attempted.
  destruct (passes _); [|destruct (passes _)]; cbn [app];
    (split; [reflexivity|]; split; [reflexivity|]; intros []; cbn; lia).
Qed.

End MoreProperties.

(** X1 at work: three words read with a trailing blank. *)
Lemma text_is_normalised_witness :
  exists r, returned (extract_text None (Some (MoreSamples.parser_of_words 3))
                        None "<p>word word word </p>") = Ret r
            /\ text r = Some "word word word" /\ normal_text r.
Proof.
  destruct (text_is_normalised None (Some (MoreSamples.parser_of_words 3)) None
              "<p>word word word </p>") as (_ & r & Hr & Hn).
  exists r; split; [exact Hr|].
  cbv in Hr; injection Hr as Hr.
  split; [now rewrite <- Hr|].
  apply Hn; right; now rewrite <- Hr.
Defined.

(** X3 at work: readability wins with sixty words. *)
Lemma readability_only_above_gate_witness :
  exists r, returned (extract_text None (Some (MoreSamples.parser_of_words 60))
                        (Some MoreSamples.article_found) "<article>") = Ret r
            /\ method r = Some "readability" /\ (50 < word_count r)%Z.
Proof.
  destruct (readability_only_above_gate None
              (Some (MoreSamples.parser_of_words 60))
              (Some MoreSamples.article_found) "<article>") as (r & Hr & Hgate).
  exists r; split; [exact Hr|].
  assert (Hm : method r = Some "readability").
  { cbv in Hr; injection Hr as Hr; now rewrite <- Hr. }
  split; [exact Hm | exact (Hgate Hm)].
Defined.

(** X4 at work: readability reads three words, trafilatura is missing and
    the cleaning pass of beautifulsoup fails. *)
Lemma partial_readability_dropped_witness :
  returned (extract_text None (Some (MoreSamples.parser_cannot_clean 3))
              (Some MoreSamples.article_found) "<article>")
  = Ret (failure "trafilatura not installed")
  /\ exists e, failure "trafilatura not installed" = failure e
               /\ error_of trafilatura_adapter e.
Proof.
  eapply (partial_readability_dropped None
            (Some (MoreSamples.parser_cannot_clean 3))
            (Some MoreSamples.article_found) "<article>").
  1-3: reflexivity.
  all: try reflexivity.
  vm_compute; discriminate.
Defined.

(** X8 at work: an empty category list becomes absent, and the extracted
    title is the metadata's. *)
Lemma metadata_lists_and_title_witness :
  exists r m, returned (extract_text
                          (Some (MoreSamples.article_with_metadata 60))
                          None None "<article>") = Ret r
              /\ metadata r = Some m
              /\ md_categories m = None /\ md_tags m = Some ["ruins"]
              /\ title_extracted r = Some "A title"
              /\ metadata_sound r.
Proof.
  destruct (metadata_lists_and_title
              (Some (MoreSamples.article_with_metadata 60)) None None
              "<article>") as (r & Hr & Hsound).
  assert (Hr' := Hr); cbv in Hr'; injection Hr' as Hr'.
  exists r; eexists; split; [exact Hr|].
  split; [now rewrite <- Hr'|].
  repeat split; try exact Hsound; now rewrite <- Hr'.
Defined.

(** X9 at work: the four anchors of the link-filtering example. *)
Lemma usable_links_all_kept_witness :
  exists r ls, run_adapter None (Some Samples.anchors_parser) None
                 beautifulsoup_adapter "<a href='/about'>About</a>" = Ret r
               /\ links r = Some ls /\ In "/about" (map url ls).
Proof.
  destruct (usable_links_all_kept None (Some Samples.anchors_parser) None
              "<a href='/about'>About</a>" Samples.anchors_parser
              Samples.four_anchors Samples.four_anchors
              eq_refl eq_refl eq_refl) as (r & ls & Hr & Hls & _ & Hall).
  exists r, ls; repeat split; auto.
  apply (Hall ltac:(cbv; lia) "/about" "About").
  - cbn; tauto.
  - intros [H|[H|H]]; discriminate.
Defined.

(** X10 at work: the empty page. *)
Lemma parser_at_work_means_success_witness :
  exists r, returned (extract_text (Some Samples.nothing_found)
                        (Some Samples.blank_parser)
                        (Some Samples.unparseable) "") = Ret r
            /\ success r = true.
Proof.
  apply (parser_at_work_means_success (Some Samples.nothing_found)
           (Some Samples.blank_parser) (Some Samples.unparseable) ""
           Samples.blank_parser Samples.blank_soup Samples.blank_soup
           eq_refl eq_refl eq_refl).
Defined.

(** * Properties of the reset script *)

Module ResetDbFacts.

Import ResetDb.

Lemma parent_div (p : Path) (s : string) : parent (div p s) = p.
Proof. unfold parent, div; apply removelast_last. Qed.

Lemma name_div (p : Path) (s : string) : name (div p s) = s.
Proof. unfold name, div; apply last_last. Qed.


Example yes_in_capitals : is_yes (lower (PyStr.strip "  YES ")) = true.
Proof. reflexivity. Qed.

Example no_is_not_yes : is_yes (lower (PyStr.strip "no")) = false.
Proof. reflexivity. Qed.

Example empty_answer_is_not_yes : is_yes (lower (PyStr.strip "")) = false.
Proof. reflexivity. Qed.

(** The parts of a [confined] step, for a given list of removals. *)
Ltac confined_parts :=
  split; [|split];
  [ auto
  | repeat constructor; auto
  | intros Hnil; solve [discriminate Hnil | auto] ].


Section Facts.

Variable host : Host.

Local Abbreviation World := (ResetDb.World host).
Local Abbreviation IO := (ResetDb.IO host).

(** ** Confined steps compose, whatever raises *)

Lemma confined_ret {A : Type} (P : removal -> Prop) (a : A) :
  confined host P (io_ret host a).
Proof.
  intros w; exists []; cbn; rewrite app_nil_r; auto.
Qed.

Lemma confined_bind {A B : Type} (P : removal -> Prop)
  (m : IO A) (k : A -> IO B) :
  confined host P m -> (forall a, confined host P (k a)) ->
  confined host P (io_bind host m k).
Proof.
  intros Hm Hk w; unfold io_bind.
  destruct (Hm w) as (l & H3 & H4 & H5).
  destruct (m w) as [[a|e] w1]; cbn [fst snd] in *.
  - destruct (Hk a w1) as (l' & K3 & K4 & K5).
    exists (l ++ l')%list; repeat split.
    + rewrite K3, H3; apply eq_sym, app_assoc.
    + apply Forall_app; auto.
    + intros Hnil; apply app_eq_nil in Hnil as [-> ->].
      rewrite K5, H5; reflexivity.
  - exists l; auto.
Qed.

Lemma confined_try {A : Type} (P : removal -> Prop)
  (body : IO A) (handler : string -> IO A) :
  confined host P body -> (forall e, confined host P (handler e)) ->
  confined host P (io_try host body handler).
Proof.
  intros Hm Hk w; unfold io_try.
  destruct (Hm w) as (l & H3 & H4 & H5).
  destruct (body w) as [[a|e] w1]; cbn [fst snd] in *.
  - exists l; auto.
  - destruct (Hk e w1) as (l' & K3 & K4 & K5).
    exists (l ++ l')%list; repeat split.
    + rewrite K3, H3; apply eq_sym, app_assoc.
    + apply Forall_app; auto.
    + intros Hnil; apply app_eq_nil in Hnil as [-> ->].
      rewrite K5, H5; reflexivity.
Qed.

Lemma confined_print (P : removal -> Prop) (s : string) :
  confined host P (print host s).
Proof.
  intros w; exists []; unfold print; rewrite app_nil_r.
  destruct (write_error host s); cbn; auto.
Qed.

Lemma confined_input (P : removal -> Prop) (prompt : string) :
  confined host P (input host prompt).
Proof.
  intros w; exists []; unfold input; rewrite app_nil_r.
  destruct (write_error host prompt); [cbn; auto|].
  destruct (stdin w); cbn; auto.
Qed.

Lemma confined_exists (P : removal -> Prop) (p : Path) :
  confined host P (exists_ host p).
Proof.
  intros w; exists []; cbn; rewrite app_nil_r; auto.
Qed.

Lemma confined_any_iterdir (P : removal -> Prop) (p : Path) :
  confined host P (any_iterdir host p).
Proof.
  intros w; exists []; cbn; rewrite app_nil_r; auto.
Qed.

Lemma confined_remove (P : removal -> Prop)
  (op : FS host -> Path -> FS host * option string) (r : removal) :
  P r -> confined host P (remove host op r).
Proof.
  intros HP w; exists [r]; unfold remove.
  destruct (op (fs w) (target r)) as [fs' [e|]]; cbn; confined_parts.
Qed.

Lemma confined_for_each {A : Type} (P : removal -> Prop) (l : list A)
  (body : A -> IO unit) :
  (forall x, In x l -> confined host P (body x)) ->
  confined host P (for_each host l body).
Proof.
  induction l as [|x l IH]; intros Hb; cbn [for_each].
  - apply confined_ret.
  - apply confined_bind; [apply Hb; now left|].
    intros _; apply IH; intros y Hy; apply Hb; now right.
Qed.

Ltac confined_basic side :=
  lazymatch goal with
  | |- confined _ _ (io_bind _ _ _) => apply confined_bind; [|intros ?]
  | |- confined _ _ (io_try _ _ _) => apply confined_try; [|intros ?]
  | |- confined _ _ (print _ _) => apply confined_print
  | |- confined _ _ (input _ _) => apply confined_input
  | |- confined _ _ (io_ret _ _) => apply confined_ret
  | |- confined _ _ (exists_ _ _) => apply confined_exists
  | |- confined _ _ (any_iterdir _ _) => apply confined_any_iterdir
  | |- confined _ _ (remove _ _ _) => apply confined_remove; side
  | |- confined _ _ (if ?b then _ else _) => destruct b
  | |- confined _ _ (match ?d with Some _ => _ | None => _ end) => destruct d
  end.

Lemma confined_remove_file (P : removal -> Prop) (path : Path) (name_ : string) :
  P (Unlink path) -> confined host P (remove_file host path name_).
Proof.
  intros HP; unfold remove_file; repeat confined_basic ltac:(exact HP).
Qed.

Lemma confined_remove_dir (P : removal -> Prop) (path : Path) (name_ : string) :
  P (Rmtree path) -> confined host P (remove_dir host path name_).
Proof.
  intros HP; unfold remove_dir; repeat confined_basic ltac:(exact HP).
Qed.

Lemma confined_rmdir_if_empty (P : removal -> Prop) (d : Path) (msg : string) :
  P (Rmdir d) ->
  confined host P
    (io_try host
       (io_bind host (any_iterdir host d) (fun a =>
          if negb a
          then io_bind host (remove host (rmdir host) (Rmdir d))
                 (fun _ => print host msg)
          else io_ret host tt))
       (fun _ => io_ret host tt)).
Proof.
  intros HP; repeat confined_basic ltac:(exact HP).
Qed.

Lemma confined_remove_if_empty (P : removal -> Prop) (d : Path) (what : string) :
  P (Rmdir d) -> confined host P (remove_if_empty host d what).
Proof.
  intros HP; unfold remove_if_empty; repeat confined_basic ltac:(exact HP).
Qed.

Ltac confined_step side :=
  lazymatch goal with
  | |- confined _ _ (remove_file _ _ _) => apply confined_remove_file; side
  | |- confined _ _ (remove_dir _ _ _) => apply confined_remove_dir; side
  | |- confined _ _ (remove_if_empty _ _ _) =>
      apply confined_remove_if_empty; side
  | |- confined _ _ (io_try _ _ _) => apply confined_rmdir_if_empty; side
  | |- confined _ _ (for_each _ _ _) =>
      apply confined_for_each; intros ? [<-|[<-|[]]]; cbv beta
  | |- _ => confined_basic side
  end.

(** ** The removals of a full reset stay in its footprint *)

Lemma wal_path (suffix : string) :
  div (parent (get_default_db_path host))
      (name (get_default_db_path host) ++ suffix)
  = div (div (get_config_dir host) "data") ("au-archive.db" ++ suffix).
Proof.
  unfold get_default_db_path; now rewrite parent_div, name_div.
Qed.

Ltac in_list :=
  cbn [target app In append];
  solve [repeat (first [left; reflexivity | right])].

Lemma confined_remove_everything (archive_path : option string)
  (nuclear_ : bool) (dev : option Path) :
  confined host
    (fun r => In (target r) (footprint host archive_path nuclear_ dev))
    (remove_everything host archive_path nuclear_ dev).
Proof.
  unfold remove_everything, footprint, get_bootstrap_config_path,
    get_maintenance_history_path, get_logs_dir, get_research_browser_dir.
  destruct dev as [d|], (given archive_path) as [a|], nuclear_;
    repeat (rewrite ?wal_path;
            confined_step ltac:(unfold get_default_db_path; in_list)).
Qed.

Lemma footprint_names (archive_path : option string) (dev : option Path)
  (p : Path) :
  In p (footprint host archive_path false dev) ->
  name p <> "research-browser".
Proof.
  intros Hin Hname.
  assert (Hdiv : forall q s, div q s = p -> s <> "research-browser" -> False).
  { intros q s <- Hs; rewrite name_div in Hname; auto. }
  revert Hin.
  unfold footprint, get_default_db_path, get_bootstrap_config_path,
    get_maintenance_history_path, get_logs_dir.
  destruct dev as [d|], (given archive_path) as [a|];
    rewrite !in_app_iff; cbn [In];
    intuition (eapply Hdiv; [eassumption | discriminate]).
Qed.

(** ** Calm steps: the listing and the look at the project directory *)

Lemma calm_ret {A : Type} (a : A) : calm host (io_ret host a).
Proof. intros w; cbn; auto. Qed.

Lemma calm_print (s : string) : calm host (print host s).
Proof.
  intros w; unfold print; destruct (write_error host s); cbn; auto.
Qed.

Lemma calm_exists (p : Path) : calm host (exists_ host p).
Proof. intros w; cbn; auto. Qed.

Lemma calm_bind {A B : Type} (m : IO A) (k : A -> IO B) :
  calm host m -> (forall a, calm host (k a)) -> calm host (io_bind host m k).
Proof.
  intros Hm Hk w; unfold io_bind.
  destruct (Hm w) as (H1 & H2 & H3).
  destruct (m w) as [[a|e] w1]; cbn [snd] in *; [|auto].
  destruct (Hk a w1) as (K1 & K2 & K3).
  repeat split; congruence.
Qed.

Ltac calm_step :=
  lazymatch goal with
  | |- calm _ (io_bind _ _ _) => apply calm_bind; [|intros ?]
  | |- calm _ (print _ _) => apply calm_print
  | |- calm _ (io_ret _ _) => apply calm_ret
  | |- calm _ (exists_ _ _) => apply calm_exists
  | |- calm _ (if ?b then _ else _) => destruct b
  | |- calm _ (match ?d with Some _ => _ | None => _ end) => destruct d
  end.

Lemma calm_announce (archive_path : option string) (nuclear_ : bool)
  (dev : option Path) :
  calm host (announce host archive_path nuclear_ dev).
Proof.
  unfold announce; repeat calm_step.
Qed.

Lemma calm_confined {A : Type} (P : removal -> Prop) (m : IO A) :
  calm host m -> confined host P m.
Proof.
  intros Hm w; destruct (Hm w) as (H1 & H2 & _).
  exists []; rewrite app_nil_r; auto.
Qed.


(** [get_dev_data_dir()] returns what [dev_data_dir_of] says, or raises,
    and leaves the world as it is. *)
Lemma get_dev_data_dir_run (w : World) :
  get_dev_data_dir host w = (Ret (dev_data_dir_of host w), w)
  \/ exists e, get_dev_data_dir host w = (Raise e, w).
Proof.
  unfold dev_data_dir_of, get_dev_data_dir, io_bind, exists_, io_ret.
  destruct (path_exists host (fs w) _) as [[|]|e]; cbn; eauto.
  destruct (path_exists host (fs w) _) as [[|]|e]; cbn; eauto.
Qed.

Lemma get_dev_data_dir_fst (w : World) :
  fst (get_dev_data_dir host w)
  = match path_exists host (fs w)
            (div (div (div (cwd host) "packages") "desktop") "data") with
    | Ret true =>
        Ret (Some (div (div (div (cwd host) "packages") "desktop") "data"))
    | Ret false =>
        match path_exists host (fs w)
                (div (div (cwd host) "packages") "desktop") with
        | Ret true =>
            Ret (Some (div (div (div (cwd host) "packages") "desktop") "data"))
        | Ret false => Ret None
        | Raise e => Raise e
        end
    | Raise e => Raise e
    end.
Proof.
  unfold get_dev_data_dir, io_bind, exists_, io_ret.
  destruct (path_exists host (fs w) _) as [[|]|e]; cbn; auto.
  destruct (path_exists host (fs w) _) as [[|]|e]; cbn; auto.
Qed.

Lemma dev_data_dir_of_fs (w w' : World) :
  fs w' = fs w -> dev_data_dir_of host w' = dev_data_dir_of host w.
Proof.
  intros H; unfold dev_data_dir_of.
  rewrite !get_dev_data_dir_fst, H; reflexivity.
Qed.

(** A continuation that is confined for the development directory of the
    world is confined after the look at the project directory. *)
Lemma confined_after_dev {B : Type} (P : removal -> Prop)
  (k : option Path -> IO B) (w : World) :
  confined host P (k (dev_data_dir_of host w)) ->
  exists l,
    removals (snd (io_bind host (get_dev_data_dir host) k w))
    = (removals w ++ l)%list
    /\ Forall P l
    /\ (l = [] -> fs (snd (io_bind host (get_dev_data_dir host) k w)) = fs w).
Proof.
  intros Hk; unfold io_bind.
  destruct (get_dev_data_dir_run w) as [-> | [e ->]].
  - apply Hk.
  - exists []; cbn; rewrite app_nil_r; auto.
Qed.

Lemma confined_after_print {B : Type} (P : removal -> Prop) (s : string)
  (k : unit -> IO B) (w : World) :
  (forall w0, fs w0 = fs w -> removals w0 = removals w ->
     exists l,
       removals (snd (k tt w0)) = (removals w0 ++ l)%list
       /\ Forall P l /\ (l = [] -> fs (snd (k tt w0)) = fs w0)) ->
  exists l,
    removals (snd (io_bind host (print host s) k w)) = (removals w ++ l)%list
    /\ Forall P l
    /\ (l = [] -> fs (snd (io_bind host (print host s) k w)) = fs w).
Proof.
  intros Hk; unfold io_bind, print.
  destruct (write_error host s) as [e|].
  - exists []; cbn; rewrite app_nil_r; auto.
  - apply (Hk {| fs := fs w; stdout := (stdout w ++ [printed s])%list;
                 stdin := stdin w; removals := removals w |}); reflexivity.
Qed.

(** ** What the script never removes *)

(** X17. Whatever the answers and the failures, [reset_database] attempts
    removals only on the paths of its footprint: the database files, the
    data, backups and logs directories and the two configuration files
    under the configuration directory, the development files when run from
    the project, the five support directories and [.cache] of a given
    archive, and the browser profile under [--nuclear] only. Without
    [--nuclear] no removal has the browser profile as its target. *)
Theorem reset_stays_in_footprint (archive_path : option string)
  (force_ nuclear_ : bool) (w : World) :
  exists l,
    removals (snd (reset_database host archive_path force_ nuclear_ w))
    = (removals w ++ l)%list
    /\ Forall (fun r => In (target r)
                          (footprint host archive_path nuclear_
                             (dev_data_dir_of host w))) l
    /\ (l = [] ->
        fs (snd (reset_database host archive_path force_ nuclear_ w)) = fs w)
    /\ (nuclear_ = false ->
        Forall (fun r => target r <> get_research_browser_dir host) l).
Proof.
  assert (H : exists l,
    removals (snd (reset_database host archive_path force_ nuclear_ w))
    = (removals w ++ l)%list
    /\ Forall (fun r => In (target r)
                          (footprint host archive_path nuclear_
                             (dev_data_dir_of host w))) l
    /\ (l = [] ->
        fs (snd (reset_database host archive_path force_ nuclear_ w)) = fs w)).
  { unfold reset_database.
    apply confined_after_print; intros w0 Hfs Hrem.
    rewrite <- (dev_data_dir_of_fs w w0 Hfs).
    apply confined_after_dev.
    pose proof (confined_remove_everything archive_path nuclear_
                  (dev_data_dir_of host w0)) as Hrest.
    apply confined_bind; [apply calm_confined, calm_announce | intros _].
    repeat confined_basic idtac; exact Hrest. }
  destruct H as (l & H1 & H2 & H3).
  exists l; repeat split; auto.
  intros ->; revert H2; apply Forall_impl; intros r Hr Heq.
  apply footprint_names in Hr; apply Hr.
  rewrite Heq; unfold get_research_browser_dir; apply name_div.
Qed.

(** X19. With [--db-only], [main] attempts no removal but [unlink] on the
    database file, its [-wal] and [-shm] files and, when run from the
    project, their development counterparts: no directory is removed and
    no configuration, log or archive file is a target. *)
Theorem db_only_unlinks_database_files (args : Args) (w : World) :
  db_only args = true ->
  exists l,
    removals (snd (main host args w)) = (removals w ++ l)%list
    /\ Forall (fun r => exists p,
                 r = Unlink p
                 /\ In p (database_files host (dev_data_dir_of host w))) l
    /\ (l = [] -> fs (snd (main host args w)) = fs w).
Proof.
  intros Hdb; unfold main; rewrite Hdb.
  apply confined_after_print; intros w0 Hfs Hrem; cbv zeta.
  rewrite <- (dev_data_dir_of_fs w w0 Hfs).
  apply confined_after_dev.
  unfold database_files.
  destruct (dev_data_dir_of host w0) as [d|], (force args); cbn [negb];
    repeat (rewrite ?wal_path;
            confined_step ltac:(eexists; split;
                                [reflexivity
                                |unfold get_default_db_path; in_list])).
Qed.




(** ** On an obliging host *)

Section Obliging.

Hypothesis Hob : obliging host.






(** What one guarded removal does: [remove_file] with [unlink],
    [remove_dir] with [rmtree]. *)
Lemma guarded_removal (op : FS host -> Path -> FS host * option string)
  (mk : Path -> removal) (path : Path) (ok : string)
  (failed : string -> string) (missing : string) (w : World) :
  target (mk path) = path ->
  let m :=
    io_bind host (exists_ host path) (fun e =>
      if e then
        io_try host
          (io_bind host (remove host op (mk path)) (fun _ =>
           io_bind host (print host ok) (fun _ => io_ret host true)))
          (fun e => io_bind host (print host (failed e))
                      (fun _ => io_ret host false))
      else io_bind host (print host missing) (fun _ => io_ret host false)) in
  exists b,
    fst (m w) = Ret b
    /\ stdin (snd (m w)) = stdin w
    /\ (b = true <-> path_exists host (fs w) path = Ret true
                     /\ snd (op (fs w) path) = None)
    /\ (path_exists host (fs w) path = Ret false ->
        fs (snd (m w)) = fs w /\ removals (snd (m w)) = removals w)
    /\ (path_exists host (fs w) path = Ret true ->
        fs (snd (m w)) = fst (op (fs w) path)
        /\ removals (snd (m w)) = (removals w ++ [mk path])%list).
Proof.
  intros Ht; cbv zeta.
  unfold io_bind, exists_, io_try, remove, print, io_ret; cbn [fst snd].
  destruct (proj2 Hob (fs w) path) as [[|] He]; rewrite He; cbn [fst snd fs].
  - rewrite Ht.
    destruct (op (fs w) path) as [fs' [msg|]]; cbn [fst snd];
      rewrite ?(proj1 Hob); cbn;
      eexists; repeat split; auto; try discriminate.
    intros [_ H]; discriminate.
  - rewrite ?(proj1 Hob); exists false; cbn; repeat split; auto;
      try discriminate.
    intros [H _]; discriminate.
Qed.







(** ** Running the script up to the confirmation *)








End Obliging.

(** ** The script's guarantees *)

(** What a guarded removal attempts, whatever raises. *)
Lemma guarded_removal_attempts
  (op : FS host -> Path -> FS host * option string)
  (mk : Path -> removal) (path : Path) (ok : string)
  (failed : string -> string) (missing : string) (w : World) :
  target (mk path) = path ->
  forall res,
    res = io_bind host (exists_ host path) (fun e =>
            if e then
              io_try host
                (io_bind host (remove host op (mk path)) (fun _ =>
                 io_bind host (print host ok) (fun _ => io_ret host true)))
                (fun e => io_bind host (print host (failed e))
                            (fun _ => io_ret host false))
            else io_bind host (print host missing)
                   (fun _ => io_ret host false)) w ->
    stdin (snd res) = stdin w
    /\ ((fs (snd res) = fs w /\ removals (snd res) = removals w)
        \/ (path_exists host (fs w) path = Ret true
            /\ fs (snd res) = fst (op (fs w) path)
            /\ removals (snd res) = (removals w ++ [mk path])%list))
    /\ (path_exists host (fs w) path <> Ret true ->
        fs (snd res) = fs w /\ removals (snd res) = removals w).
Proof.
  intros Ht res ->.
  unfold io_bind, exists_, io_try, remove, print, io_ret; cbn [fst snd].
  destruct (path_exists host (fs w) path) as [[|]|e] eqn:He; cbn [fst snd fs].
  - rewrite Ht.
    destruct (op (fs w) path) as [fs' [msg|]]; cbn [fst snd];
      repeat (destruct (write_error host _); cbn [fst snd]);
      cbn; (split; [reflexivity|]; split; [right; auto | congruence]).
  - destruct (write_error host missing); cbn;
      (split; [reflexivity|]; split; [left; auto | auto]).
  - cbn; split; [reflexivity|]; split; [left; auto | auto].
Qed.

(** X14. [remove_file] and [remove_dir] read nothing and attempt at most
    one removal, that of the path and only after [exists()] returned
    [True]. On a host where [exists()] answers and every text can be
    printed they raise nothing, and return [True] exactly when the path
    existed and its removal raised nothing; when the path does not exist
    they leave the file system alone. *)
Theorem guarded_removals_contract (path : Path) (name_ : string) (w : World) :
  (stdin (snd (remove_file host path name_ w)) = stdin w
   /\ ((fs (snd (remove_file host path name_ w)) = fs w
        /\ removals (snd (remove_file host path name_ w)) = removals w)
       \/ (path_exists host (fs w) path = Ret true
           /\ fs (snd (remove_file host path name_ w))
              = fst (unlink host (fs w) path)
           /\ removals (snd (remove_file host path name_ w))
              = (removals w ++ [Unlink path])%list))
   /\ (path_exists host (fs w) path <> Ret true ->
       fs (snd (remove_file host path name_ w)) = fs w
       /\ removals (snd (remove_file host path name_ w)) = removals w))
  /\ (stdin (snd (remove_dir host path name_ w)) = stdin w
      /\ ((fs (snd (remove_dir host path name_ w)) = fs w
           /\ removals (snd (remove_dir host path name_ w)) = removals w)
          \/ (path_exists host (fs w) path = Ret true
              /\ fs (snd (remove_dir host path name_ w))
                 = fst (rmtree host (fs w) path)
              /\ removals (snd (remove_dir host path name_ w))
                 = (removals w ++ [Rmtree path])%list))
      /\ (path_exists host (fs w) path <> Ret true ->
          fs (snd (remove_dir host path name_ w)) = fs w
          /\ removals (snd (remove_dir host path name_ w)) = removals w))
  /\ (obliging host ->
      (exists b,
         fst (remove_file host path name_ w) = Ret b
         /\ stdin (snd (remove_file host path name_ w)) = stdin w
         /\ (b = true <-> path_exists host (fs w) path = Ret true
                          /\ snd (unlink host (fs w) path) = None)
         /\ (path_exists host (fs w) path = Ret false ->
             fs (snd (remove_file host path name_ w)) = fs w
             /\ removals (snd (remove_file host path name_ w)) = removals w)
         /\ (path_exists host (fs w) path = Ret true ->
             fs (snd (remove_file host path name_ w))
             = fst (unlink host (fs w) path)
             /\ removals (snd (remove_file host path name_ w))
                = (removals w ++ [Unlink path])%list))
      /\ (exists b,
            fst (remove_dir host path name_ w) = Ret b
            /\ stdin (snd (remove_dir host path name_ w)) = stdin w
            /\ (b = true <-> path_exists host (fs w) path = Ret true
                             /\ snd (rmtree host (fs w) path) = None)
            /\ (path_exists host (fs w) path = Ret false ->
                fs (snd (remove_dir host path name_ w)) = fs w
                /\ removals (snd (remove_dir host path name_ w)) = removals w)
            /\ (path_exists host (fs w) path = Ret true ->
                fs (snd (remove_dir host path name_ w))
                = fst (rmtree host (fs w) path)
                /\ removals (snd (remove_dir host path name_ w))
                   = (removals w ++ [Rmtree path])%list))).
Proof.
  split; [|split].
  - exact (guarded_removal_attempts (unlink host) Unlink path
             ("  ✓ Removed " ++ name_ ++ ": " ++ str_of host path)
             (fun e => "  ✗ Failed to remove " ++ name_ ++ ": " ++ e)
             ("  - " ++ name_ ++ " not found: " ++ str_of host path)
             w eq_refl _ eq_refl).
  - exact (guarded_removal_attempts (rmtree host) Rmtree path
             ("  ✓ Removed " ++ name_ ++ ": " ++ str_of host path)
             (fun e => "  ✗ Failed to remove " ++ name_ ++ ": " ++ e)
             ("  - " ++ name_ ++ " not found: " ++ str_of host path)
             w eq_refl _ eq_refl).
  - intros Hob; split.
    + exact (guarded_removal Hob (unlink host) Unlink path
               ("  ✓ Removed " ++ name_ ++ ": " ++ str_of host path)
               (fun e => "  ✗ Failed to remove " ++ name_ ++ ": " ++ e)
               ("  - " ++ name_ ++ " not found: " ++ str_of host path)
               w eq_refl).
    + exact (guarded_removal Hob (rmtree host) Rmtree path
               ("  ✓ Removed " ++ name_ ++ ": " ++ str_of host path)
               (fun e => "  ✗ Failed to remove " ++ name_ ++ ": " ++ e)
               ("  - " ++ name_ ++ " not found: " ++ str_of host path)
               w eq_refl).
Qed.




End Facts.

(** ** The sample machines *)

Lemma linux_obliging : obliging Box.linux.
Proof.
  split; [reflexivity|]; intros disk p; eexists; reflexivity.
Qed.

Example forced_reset_of_the_sample :
  let w := reset_database Box.linux None true false (Box.installed []) in
  fst w = Ret tt
  /\ removals (snd w)
     = [Unlink (div (div Box.config "data") "au-archive.db");
        Unlink (div (div Box.config "data") "au-archive.db-wal");
        Rmdir (div Box.config "data");
        Unlink (div Box.config "config.json")]
  /\ fs (snd w) = [div Box.config "research-browser"].
Proof. vm_compute; repeat split. Qed.

Example nuclear_reset_of_the_sample :
  fs (snd (reset_database Box.linux None false true (Box.installed ["Yes"])))
  = [].
Proof. vm_compute; reflexivity. Qed.

(** On an output that encodes ASCII only, the report of a removal that
    succeeded raises, and so does the report of the handler: the file is
    gone and [remove_file] raises. *)
Example remove_file_on_a_teletype :
  let p := div (div Box.config "data") "au-archive.db" in
  let r := remove_file Box.teletype p "Database"
             (mkWorld Box.teletype [p] [] [] []) in
  fst r = Raise "'ascii' codec can't encode character"
  /\ fs (snd r) = []
  /\ removals (snd r) = [Unlink p].
Proof. vm_compute; repeat split. Qed.

(** X14 at work: the database of the sample machine. *)
Lemma guarded_removals_contract_witness :
  exists b,
    fst (remove_file Box.linux (div (div Box.config "data") "au-archive.db")
           "Database" (Box.installed [])) = Ret b
    /\ b = true.
Proof.
  destruct (guarded_removals_contract Box.linux
              (div (div Box.config "data") "au-archive.db") "Database"
              (Box.installed [])) as (_ & _ & H).
  destruct (H linux_obliging) as [(b & Hb & _ & Htrue & _) _].
  exists b; split; [exact Hb|].
  apply Htrue; split; reflexivity.
Defined.




(** X19 at work: [--db-only --force] on the sample machine. *)
Lemma db_only_unlinks_database_files_witness :
  exists l,
    removals (snd (main Box.linux (mkArgs None true true false)
                     (Box.installed [])))
    = ([] ++ l)%list
    /\ Forall (fun r => exists p,
                 r = Unlink p
                 /\ In p (database_files Box.linux
                            (dev_data_dir_of Box.linux (Box.installed [])))) l
    /\ (l = [] ->
        fs (snd (main Box.linux (mkArgs None true true false)
                   (Box.installed [])))
        = fs (Box.installed [])).
Proof.
  apply (db_only_unlinks_database_files Box.linux
           (mkArgs None true true false) (Box.installed [])).
  reflexivity.
Defined.

End ResetDbFacts.
